(** * Communities-of-interest plugin and cut-edges panel

    A shallow embedding of [src/components/Charts/CutEdgesSection.js]: the
    stub chart panel [CutEdgesSection] and the COI visualisation plugin
    (reverse mapping, checkbox hierarchy, tooltips, toggles).

    Conventions of the embedding.
    - A JavaScript object that is iterated with [Object.entries] (the unit
      map and its clusters) is the list of its entries, in iteration order.
    - The object built by [createReverseMapping] is used as a map and is a
      [gmap] from property keys to entries; a lookup is a lookup of an own
      property.  Unit identifiers are census GEOIDs, none of which names a
      property inherited from [Object.prototype]; what the code does on
      keys that do is in the module [Prototype].
    - The page is a list of elements in document order; a reference to an
      element is its position in that list.
    - Effects (console output, calls into the mapping library, style
      updates, thrown errors) are threaded through the monad [M]. *)

From Stdlib Require Import Ascii String QArith.
From stdpp Require Import base option list strings gmap.


(** ** The unit map and the reverse mapping *)

(** A cluster: COI identifier to the array of unit identifiers. *)
Abbreviation cluster_entries := (list (string * list string)).

(** The unit map: cluster identifier to cluster. *)
Abbreviation unit_map := (list (string * cluster_entries)).

(** The object literal [{"cluster": clusterIdentifier, "coi": cois}]. *)
Record entry := Entry { cluster : string; coi : list string }.

(** Body of the innermost loop (lines 166-177). *)
Definition add_geoid (clusterIdentifier coiid : string)
    (reverseMapping : gmap string entry) (geoid : string) : gmap string entry :=
  let cois :=
    match reverseMapping !! geoid with
    | Some e => coi e ++ [coiid]
    | None => [coiid]
    end in
  <[geoid := {| cluster := clusterIdentifier; coi := cois |}]> reverseMapping.

(** The loop over the COIs of one cluster (lines 164-179). *)
Definition add_cluster (reverseMapping : gmap string entry)
    (ce : string * cluster_entries) : gmap string entry :=
  foldl (λ rm (ke : string * list string),
           foldl (add_geoid ce.1 ke.1) rm ke.2)
        reverseMapping ce.2.

Definition createReverseMapping (unitMap : unit_map) : gmap string entry :=
  foldl add_cluster ∅ unitMap.

(** [unitMap[c][k]] contains [g], for entries [c] and [k] of the map. *)
Definition member (unitMap : unit_map) (c k g : string) : Prop :=
  ∃ cl gs, (c, cl) ∈ unitMap ∧ (k, gs) ∈ cl ∧ g ∈ gs.

(** The geoid occurs somewhere in the unit map. *)
Definition occurs (unitMap : unit_map) (g : string) : Prop :=
  ∃ c k, member unitMap c k g.

(** The three loops visit the triples (cluster, COI, unit) in this order. *)
Definition visits (unitMap : unit_map) : list (string * string * string) :=
  ce ← unitMap; ke ← ce.2; g ← ke.2; [(ce.1, ke.1, g)].

(** The visits that concern one unit. *)
Definition hits (g : string) (unitMap : unit_map) : list (string * string) :=
  omap (λ v : string * string * string,
          if decide (v.2 = g) then Some v.1 else None) (visits unitMap).

(** One iteration of the innermost loop, on a visit. *)
Definition visit (reverseMapping : gmap string entry)
    (v : string * string * string) : gmap string entry :=
  add_geoid v.1.1 v.1.2 reverseMapping v.2.

(** The COI identifiers under which a unit is visited, in order. *)
Definition cois_of (g : string) (unitMap : unit_map) : list string :=
  (hits g unitMap).*2.

(** The cluster of the last visit of a unit. *)
Definition last_cluster (g : string) (unitMap : unit_map) : option string :=
  fst <$> last (hits g unitMap).

(** ** Values, templates and statuses *)

(** The layer object [units]; [sourceLayer] is the only field the plugin
    reads, [setOpacity] is an effect of the mapping library. *)
Record layer := Layer { sourceLayer : string }.

(** A map feature; [properties] is its property bag. *)
Record feature := Feature { properties : gmap string string }.

(** The key a property value denotes when it indexes an object:
    [undefined] becomes the key "undefined". *)
Definition property_key (v : option string) : string :=
  default "undefined" v.

(** The template literals of the file, by place. *)
Inductive template_site :=
| CutEdgesPanel   (* lines 11-32 *)
| TooltipBox      (* lines 218-226 *)
| TooltipLine.    (* line 222 *)

#[local] Set Warnings "-register-all".

(** What a hole of a template is filled with; [TTemplate] is the result
    of the [html] tag: the literal and the values of its holes, in order. *)
Inductive tvalue :=
| TNum (n : Z)
| TText (s : string)
| TArray (items : list tvalue)
| TTemplate (site : template_site) (values : list tvalue).

Definition html : template_site → list tvalue → tvalue := TTemplate.

(** The object pushed by [getCheckboxStatuses] (lines 97-101). *)
Record status := Status {
  st_cluster : option string;
  st_coi : option string;
  st_checked : bool
}.

(** Values an identifier can be bound to in the callbacks. *)
Inductive value :=
| VUndefined
| VBoolean (b : bool)
| VString (s : string)
| VStrings (l : list string)
| VLayer (u : layer)
| VUnitMap (um : unit_map)
| VStatuses (l : list status)
| VFunction.

(** ** The page *)

(** An element of the page.  [control_checked] is [control.checked] of a
    label, the state of the checkbox the label wraps; the two style fields
    are [style["pointer-events"]] and [style["opacity"]]. *)
Record element := Element {
  localName : string;
  classList : list string;
  control_checked : bool;
  pointer_events : option string;
  opacity : option Q
}.

Definition set_pointer_events (v : string) (el : element) : element :=
  {| localName := localName el; classList := classList el;
     control_checked := control_checked el;
     pointer_events := Some v; opacity := opacity el |}.

Definition set_opacity (q : Q) (el : element) : element :=
  {| localName := localName el; classList := classList el;
     control_checked := control_checked el;
     pointer_events := pointer_events el; opacity := Some q |}.

(** ASCII whitespace separates the class names given to
    [getElementsByClassName]. *)
Definition is_space (a : ascii) : bool :=
  bool_decide (a ∈ [" "; "009"; "010"; "012"; "013"]%char).

Fixpoint tokens_from (cur : string) (s : string) : list string :=
  match s with
  | EmptyString => if decide (cur = "") then [] else [cur]
  | String a s' =>
      if is_space a
      then (if decide (cur = "") then [] else [cur]) ++ tokens_from "" s'
      else tokens_from (cur +:+ String a "") s'
  end.

Definition class_tokens (names : string) : list string := tokens_from "" names.

(** An element matches when it carries every class named; no name, no match. *)
Definition has_classes (names : string) (el : element) : bool :=
  match class_tokens names with
  | [] => false
  | ts => forallb (λ t, bool_decide (t ∈ classList el)) ts
  end.

Fixpoint positions_from (i : nat) (p : element → bool) (doc : list element)
    : list nat :=
  match doc with
  | [] => []
  | el :: doc' =>
      (if p el then [i] else []) ++ positions_from (S i) p doc'
  end.

(** The references to the elements that satisfy [p], in document order. *)
Definition positions (p : element → bool) (doc : list element) : list nat :=
  positions_from 0 p doc.

(** A string is truthy when it is not empty; [null] is falsy. *)
Definition truthy (s : option string) : bool :=
  match s with
  | Some s => negb (bool_decide (s = ""))
  | None => false
  end.

(** [s.replaceAll(" ", "-")]. *)
Fixpoint replaceAll_space_dash (s : string) : string :=
  match s with
  | EmptyString => EmptyString
  | String a s' =>
      String (if Ascii.eqb a " " then "-"%char else a) (replaceAll_space_dash s')
  end.

(** [coiClasses.includes(coi)], where [coi] may be [undefined]. *)
Definition includes (l : list string) (x : option string) : bool :=
  match x with
  | Some s => bool_decide (s ∈ l)
  | None => false
  end.

(** ** Effects *)

Inductive error := TypeError | ReferenceError.

Inductive result (A : Type) :=
| Ok (a : A)
| Throw (e : error).
Arguments Ok {A} a.
Arguments Throw {A} e.

(** What a run leaves behind, besides the page.  [Invoked] records an
    invocation of [createReverseMapping]; the others are calls out of the
    file: [console.dir], [units.setOpacity], [opacityStyleExpression]
    (from layers/COI) and [window.open]. *)
Inductive event :=
| ConsoleDirCheckboxes (refs : list nat)
| ConsoleDirStatuses (statuses : list status)
| Invoked (unitMap : unit_map)
| SetOpacity (units : layer) (q : Q)
| OpacityStyleExpression (units geoids checked : value)
| WindowOpen (path : string).

Record world := World {
  document : list element;
  trace : list event
}.

Definition M (A : Type) : Type := world → result A * world.

#[export] Instance M_ret : MRet M := λ A a w, (Ok a, w).

#[export] Instance M_bind : MBind M := λ A B f m w,
  match m w with
  | (Ok a, w') => f a w'
  | (Throw e, w') => (Throw e, w')
  end.

Definition throw {A} (e : error) : M A := λ w, (Throw e, w).

(** The world after one more event. *)
Definition logged (ev : event) (w : world) : world :=
  {| document := document w; trace := trace w ++ [ev] |}.

Definition emit (ev : event) : M unit := λ w, (Ok (), logged ev w).

Definition get_document : M (list element) := λ w, (Ok (document w), w).

(** Reading through a reference; a dangling one reads [undefined], whose
    properties cannot be read. *)
Definition deref (ref : nat) : M element := λ w,
  match document w !! ref with
  | Some el => (Ok el, w)
  | None => (Throw TypeError, w)
  end.

(** Writing a style property of the element a reference denotes. *)
Definition update (ref : nat) (f : element → element) : M unit := λ w,
  match document w !! ref with
  | Some el =>
      (Ok (), {| document := <[ref := f el]> (document w); trace := trace w |})
  | None => (Throw TypeError, w)
  end.

(** [for (let x of l) ...] with the loop state [s]. *)
Fixpoint for_of {A S} (body : S → A → M S) (s : S) (l : list A) : M S :=
  match l with
  | [] => mret s
  | x :: l' => s' ← body s x; for_of body s' l'
  end.

Definition getElementsByClassName (names : string) : M (list nat) :=
  doc ← get_document; mret (positions (has_classes names) doc).

(** ** The checkbox hierarchy (lines 46-120) *)

Definition is_label (doc : list element) (ref : nat) : bool :=
  match doc !! ref with
  | Some el => bool_decide (localName el = "label")
  | None => false
  end.

Definition retrieveCheckboxes (cluster : option string) : M (list nat) :=
  checkboxes ← getElementsByClassName "allvisible-checkbox";
  checkboxes ←
    (if truthy cluster
     then byCluster ← getElementsByClassName (default "" cluster);
          mret (checkboxes ++ byCluster)
     else clusterBoxes ← getElementsByClassName "cluster-checkbox";
          coiBoxes ← getElementsByClassName "coi-checkbox";
          mret ((checkboxes ++ clusterBoxes) ++ coiBoxes));
  emit (ConsoleDirCheckboxes checkboxes);;
  doc ← get_document;
  mret (List.filter (is_label doc) checkboxes).

(** Body of the loop of [getCheckboxStatuses] (lines 88-101). *)
Definition push_status (cluster : option string)
    (coiClasses : option (list string))
    (checkboxStatuses : list status) (checkbox : nat) : M (list status) :=
  el ← deref checkbox;
  let coi := classList el !! 3%nat in
  let hasEnoughClasses := bool_decide (3 < length (classList el))%nat in
  let included :=
    match coiClasses with
    | Some cs => includes cs coi
    | None => false
    end in
  let skipCondition := hasEnoughClasses && negb included in
  if skipCondition then mret checkboxStatuses
  else mret (checkboxStatuses ++
             [{| st_cluster := cluster; st_coi := coi;
                 st_checked := control_checked el |}]).

Definition getCheckboxStatuses (cluster : option string)
    (cois : option (list string)) : M (list status) :=
  checkboxes ← retrieveCheckboxes cluster;
  let coiClasses := map replaceAll_space_dash <$> cois in
  for_of (push_status cluster coiClasses) [] checkboxes.

Definition checkIfAllVisible (cluster : option string)
    (cois : option (list string)) : M bool :=
  statuses ← getCheckboxStatuses cluster cois;
  mret (foldl (λ isChecked st, isChecked && st_checked st) true statuses).

(** ** Tooltips and clicks (lines 122-153, 191-230) *)

(** A call [createReverseMapping(unitMap)]: the invocation is recorded,
    the value is the one computed by [createReverseMapping].  This is the
    call on a unit map whose geoids name no inherited property; on another
    one the call throws, see [Prototype.createReverseMapping]. *)
Definition call_createReverseMapping (unitMap : unit_map)
    : M (gmap string entry) :=
  emit (Invoked unitMap);; mret (createReverseMapping unitMap).

(** The tooltip of lines 218-226: one line per COI name. *)
Definition tooltip_of (cois : list string) : tvalue :=
  html TooltipBox
    [TArray (map (λ d, html TooltipLine [TText d]) cois)].

(** The function returned by [watchTooltips] (lines 194-229), closed over
    [reverseMapping] and [identifier]; [None] is [null].  The test of line
    205 is read on own keys; [Prototype.tooltip_callback] reads it on every
    key and agrees with this one unless the hovered identifier names an
    inherited property. *)
Definition tooltip_callback (reverseMapping : gmap string entry)
    (identifier : string) (features : list feature) : M (option tvalue) :=
  match features with
  | [] => mret None
  | feature :: _ =>
      let geoid := property_key (properties feature !! identifier) in
      match reverseMapping !! geoid with
      | Some e =>
          let cluster := cluster e in
          let cois := coi e in
          isChecked ← checkIfAllVisible (Some cluster) (Some cois);
          if (isChecked : bool) then mret (Some (tooltip_of cois))
          else mret None
      | None => mret None
      end
  end.

Definition watchTooltips (unitMap : unit_map) (identifier : string)
    : M (list feature → M (option tvalue)) :=
  reverseMapping ← call_createReverseMapping unitMap;
  mret (tooltip_callback reverseMapping identifier).

(** The accesses [reverseMapping[geoid]["cluster"]] and
    [reverseMapping[geoid]["coi"]] of lines 138-139: reading a property of
    [undefined] throws.  Read on own keys; [Prototype.entry_fields] reads
    them on every key. *)
Definition entry_fields (reverseMapping : gmap string entry)
    (geoid : string) : M (string * list string) :=
  match reverseMapping !! geoid with
  | Some e => mret (cluster e, coi e)
  | None => throw TypeError
  end.

(** The click listener of lines 127-152; [queried] is what
    [map.queryRenderedFeatures(e.point)] returns.  The window that
    [window.open] returns is taken to exist. *)
Definition click_handler (units : layer) (reverseMapping : gmap string entry)
    (identifier : string) (queried : list feature) : M unit :=
  let selectedFeatures :=
    map (λ f, if decide (properties f !! "source" = Some (sourceLayer units))
              then Some f else None) queried in
  match selectedFeatures with
  | Some feature :: _ =>
      let geoid := property_key (properties feature !! identifier) in
      '(cluster, cois) ← entry_fields reverseMapping geoid;
      visible ← checkIfAllVisible (Some cluster) (Some cois);
      if (visible : bool) then emit (WindowOpen "/coi-info/") else mret ()
  | _ => throw TypeError
  end.

Definition onFeatureClicked (units : layer) (unitMap : unit_map)
    (identifier : string) : M (list feature → M unit) :=
  reverseMapping ← call_createReverseMapping unitMap;
  mret (click_handler units reverseMapping identifier).

(** ** Properties inherited from [Object.prototype]

    The reverse mapping is created by [{}], so reading [reverseMapping[key]]
    also sees the properties every object inherits.  The definitions above
    read own properties only, which is what the code does on identifiers
    that name no inherited property; the definitions of this module read
    as the code does on every key. *)

Module Prototype.

(** The names an object created by [{}] inherits. *)
Definition inherited_names : list string :=
  ["constructor"; "__defineGetter__"; "__defineSetter__"; "hasOwnProperty";
   "__lookupGetter__"; "__lookupSetter__"; "isPrototypeOf";
   "propertyIsEnumerable"; "toString"; "valueOf"; "__proto__";
   "toLocaleString"].

(** What [reverseMapping[key]] evaluates to: an entry stored under the key,
    an inherited function or object (truthy, without "cluster" and "coi"),
    or [undefined]. *)
Inductive read :=
| Own (e : entry)
| Inherited
| Undefined.

Definition get (reverseMapping : gmap string entry) (key : string) : read :=
  match reverseMapping !! key with
  | Some e => Own e
  | None => if decide (key ∈ inherited_names) then Inherited else Undefined
  end.

(** Body of the innermost loop (lines 166-177); once an iteration has
    thrown, nothing more is done.  On an inherited value the test of line
    170 passes, its "coi" is [undefined] and [.concat] throws. *)
Definition add_geoid (clusterIdentifier coiid : string)
    (acc : result (gmap string entry)) (geoid : string)
    : result (gmap string entry) :=
  match acc with
  | Throw err => Throw err
  | Ok reverseMapping =>
      match get reverseMapping geoid with
      | Own e =>
          Ok (<[geoid := {| cluster := clusterIdentifier;
                            coi := coi e ++ [coiid] |}]> reverseMapping)
      | Inherited => Throw TypeError
      | Undefined =>
          Ok (<[geoid := {| cluster := clusterIdentifier;
                            coi := [coiid] |}]> reverseMapping)
      end
  end.

Definition add_cluster (acc : result (gmap string entry))
    (ce : string * cluster_entries) : result (gmap string entry) :=
  foldl (λ acc (ke : string * list string),
           foldl (add_geoid ce.1 ke.1) acc ke.2)
        acc ce.2.

Definition createReverseMapping (unitMap : unit_map)
    : result (gmap string entry) :=
  foldl add_cluster (Ok ∅) unitMap.

(** One iteration of the innermost loop, on a visit. *)
Definition visit (acc : result (gmap string entry))
    (v : string * string * string) : result (gmap string entry) :=
  add_geoid v.1.1 v.1.2 acc v.2.

(** The accesses of lines 138-139 and 213-214: the fields of an entry, two
    [undefined] on an inherited value, a TypeError on [undefined]. *)
Definition entry_fields (reverseMapping : gmap string entry)
    (geoid : string) : M (option string * option (list string)) :=
  match get reverseMapping geoid with
  | Own e => mret (Some (cluster e), Some (coi e))
  | Inherited => mret (None, None)
  | Undefined => throw TypeError
  end.

(** The function returned by [watchTooltips] (lines 194-229).  On an
    inherited value the test of line 205 passes; if the hierarchy is
    visible, line 221 calls [.map] on [undefined]. *)
Definition tooltip_callback (reverseMapping : gmap string entry)
    (identifier : string) (features : list feature) : M (option tvalue) :=
  match features with
  | [] => mret None
  | feature :: _ =>
      let geoid := property_key (properties feature !! identifier) in
      match get reverseMapping geoid with
      | Own e =>
          isChecked ← checkIfAllVisible (Some (cluster e)) (Some (coi e));
          if (isChecked : bool) then mret (Some (tooltip_of (coi e)))
          else mret None
      | Inherited =>
          isChecked ← checkIfAllVisible None None;
          if (isChecked : bool) then throw TypeError else mret None
      | Undefined => mret None
      end
  end.

(** The click listener of lines 127-152. *)
Definition click_handler (units : layer) (reverseMapping : gmap string entry)
    (identifier : string) (queried : list feature) : M unit :=
  let selectedFeatures :=
    map (λ f, if decide (properties f !! "source" = Some (sourceLayer units))
              then Some f else None) queried in
  match selectedFeatures with
  | Some feature :: _ =>
      let geoid := property_key (properties feature !! identifier) in
      '(cluster, cois) ← entry_fields reverseMapping geoid;
      visible ← checkIfAllVisible cluster cois;
      if (visible : bool) then emit (WindowOpen "/coi-info/") else mret ()
  | _ => throw TypeError
  end.

End Prototype.

(** ** Styling and toggles (lines 236-267, 388-423) *)

Definition initialStyles : M unit :=
  checkboxes ← retrieveCheckboxes None;
  let allCheckboxes := drop 1 checkboxes in
  for_of (λ _ checkbox,
            update checkbox (set_pointer_events "none");;
            update checkbox (set_opacity (Qmake 1 2)))
         () allCheckboxes.

(** The callback returned by [displayCOIs(units)]. *)
Definition displayCOIs (units : layer) (checked : bool) : M unit :=
  checkboxes ← retrieveCheckboxes None;
  let checkboxes := drop 1 checkboxes in
  for_of (λ _ checkbox,
            update checkbox
              (set_pointer_events (if checked then "auto" else "none"));;
            update checkbox
              (set_opacity (if checked then 1%Q else Qmake 1 2));;
            emit (SetOpacity units (if checked then Qmake 1 3 else 0%Q)))
         () checkboxes.

(** [object[key]] on an object given by its entries. *)
Fixpoint property {A} (entries : list (string * A)) (key : string) : option A :=
  match entries with
  | [] => None
  | (k, v) :: entries' => if decide (k = key) then Some v else property entries' key
  end.

Definition opacityStyleExpression (units geoids checked : value) : M unit :=
  emit (OpacityStyleExpression units geoids checked).

(** The callback returned by [toggleIndividualCOI(cluster, name, units,
    unitMap)], for cluster identifiers and COI names that name no inherited
    property: [unitMap[cluster][name]] is read on own keys. *)
Definition toggleIndividualCOI (cluster name : string) (units : layer)
    (unitMap : unit_map) (checked : bool) : M unit :=
  match property unitMap cluster with
  | None => throw TypeError
  | Some cois =>
      let geoids :=
        match property cois name with
        | Some gs => VStrings gs
        | None => VUndefined
        end in
      opacityStyleExpression (VLayer units) geoids (VBoolean checked)
  end.

(** The names bound at module level: the imports (lines 35-39) and the
    function declarations. *)
Definition module_bindings : list (string * value) :=
  map (λ name, (name, VFunction))
    ["Tooltip"; "Tab"; "addCOIs"; "opacityStyleExpression"; "html";
     "directive"; "toggle"; "retrieveCheckboxes"; "getCheckboxStatuses";
     "checkIfAllVisible"; "onFeatureClicked"; "createReverseMapping";
     "watchTooltips"; "initialStyles"; "displayCOIs"; "adjustToolpaneWidth";
     "createCOICheckbox"; "listCOIs"; "toggleIndividualCOI"; "toggleCluster";
     "CoiVisualizationPlugin"].

(** The globals the file refers to. *)
Definition global_bindings : list (string * value) :=
  map (λ name, (name, VFunction))
    ["document"; "console"; "window"; "Array"; "Object"; "Promise"].

(** Evaluating an identifier against the bindings in scope; one that is
    bound nowhere throws. *)
Definition resolve (scope : list (string * value)) (name : string) : M value :=
  match property scope name with
  | Some v => mret v
  | None => throw ReferenceError
  end.

(** The callback returned by [toggleCluster(cluster, units, unitMap)]
    (lines 413-422).  Its scope holds the parameter [checked], the local
    [statuses], the parameters of [toggleCluster], the module's names and
    the globals. *)
Definition toggleCluster (cluster : string) (units : layer)
    (unitMap : unit_map) (checked : bool) : M unit :=
  statuses ← getCheckboxStatuses None None;
  let scope :=
    [("statuses", VStatuses statuses); ("checked", VBoolean checked);
     ("cluster", VString cluster); ("units", VLayer units);
     ("unitMap", VUnitMap unitMap)] ++ module_bindings ++ global_bindings in
  emit (ConsoleDirStatuses statuses);;
  _ ← resolve scope "opacityStyleExpression";
  arg_units ← resolve scope "units";
  arg_geoids ← resolve scope "geoids";
  arg_checked ← resolve scope "checked";
  opacityStyleExpression arg_units arg_geoids arg_checked.

(** ** The rendered page (lines 300-376, 457-479) *)

(** A [classList] is an ordered set: of a repeated class name the first
    occurrence counts. *)
Fixpoint ordered_set (seen : list string) (names : list string) : list string :=
  match names with
  | [] => []
  | name :: names' =>
      if decide (name ∈ seen) then ordered_set seen names'
      else name :: ordered_set (name :: seen) names'
  end.

(** A cluster as the plugin reads it: [plan.id] and the names of
    [plan.parts]. *)
Record plan := Plan { plan_id : string; parts : list string }.

(** Modelled from the spec: the [toggle] component (components/Toggle) is
    not among the sources.  It renders a label around a checkbox; the label
    carries one class of its own followed by the classes passed in, which is
    what reading the COI name at [classList[3]] of a label created with the
    classes "coi-checkbox <cluster> <coi>" relies on.  The class list of the
    element is the ordered set of the classes written. *)
Definition toggle (checked : bool) (classes : string) : element :=
  {| localName := "label";
     classList := ordered_set [] ("toolbar-checkbox" :: class_tokens classes);
     control_checked := checked;
     pointer_events := None; opacity := None |}.

(** The paragraph of line 369, which carries the cluster and COI names. *)
Definition paragraph (classes : string) : element :=
  {| localName := "p"; classList := ordered_set [] (class_tokens classes);
     control_checked := false;
     pointer_events := None; opacity := None |}.

Definition cluster_classes (name : string) : string :=
  "cluster-checkbox " +:+ name.

Definition coi_classes (id name : string) : string :=
  "coi-checkbox " +:+ id +:+ " " +:+ replaceAll_space_dash name.

(** The labels and paragraphs of the tab, in document order; [checked]
    gives the state of the checkbox created with the given classes. *)
Definition page_of (clusters : list plan) (checked : string → bool)
    : list element :=
  toggle (checked "allvisible-checkbox") "allvisible-checkbox" ::
  (cl ← clusters;
   toggle (checked (cluster_classes (plan_id cl)))
          (cluster_classes (plan_id cl)) ::
   (name ← parts cl;
    [toggle (checked (coi_classes (plan_id cl) name))
            (coi_classes (plan_id cl) name);
     paragraph (plan_id cl +:+ " " +:+ name)])).

(** ** The plugin (lines 430-493) *)

(** The callbacks a session installs. *)
Record handles := Handles {
  on_display : bool → M unit;
  on_hover : list feature → M (option tvalue);
  on_cluster : list (string * (bool → M unit));
  on_coi : list (string * string * (bool → M unit));
  on_click : list feature → M unit
}.

(** [editor.render()]: the page now shows the tab. *)
Definition render (page : list element) : M unit := λ w,
  (Ok (), {| document := page; trace := trace w |}).

(** The function passed to [addCOIs(state).then]: one session.  [page] is
    the page [editor.render()] produces. *)
Definition CoiVisualizationPlugin (clusters : list plan)
    (unitMap : unit_map) (units : layer) (page : list element) : M handles :=
  let displayCallback := displayCOIs units in
  tooltipCallback ← watchTooltips unitMap "GEOID20";
  let clusterToggles :=
    map (λ cl, (plan_id cl, toggleCluster (plan_id cl) units unitMap))
        clusters in
  let coiToggles :=
    cl ← clusters; name ← parts cl;
    [(plan_id cl, name, toggleIndividualCOI (plan_id cl) name units unitMap)] in
  render page;;
  initialStyles;;
  clickHandler ← onFeatureClicked units unitMap "GEOID20";
  mret {| on_display := displayCallback; on_hover := tooltipCallback;
          on_cluster := clusterToggles; on_coi := coiToggles;
          on_click := clickHandler |}.

(** ** The cut-edges panel (lines 6-33) *)

Definition CutEdgesSection {S U D : Type} (state : S) (uiState : U)
    (dispatch : D) : tvalue :=
  let numCutEdges := 0%Z in
  let cutEdges : list tvalue := [] in
  html CutEdgesPanel [TNum numCutEdges; TArray cutEdges].

(** The values shown in the holes of a template. *)
Definition shown (t : tvalue) : list tvalue :=
  match t with
  | TTemplate _ values => values
  | _ => []
  end.

(** ** Reading the hierarchy off the page

    Descriptions of what the functions above compute, used to state their
    properties. *)

(** The array [checkboxes] of [retrieveCheckboxes] before the filter. *)
Definition candidates (cluster : option string) (doc : list element)
    : list nat :=
  if truthy cluster
  then positions (has_classes "allvisible-checkbox") doc
       ++ positions (has_classes (default "" cluster)) doc
  else (positions (has_classes "allvisible-checkbox") doc
        ++ positions (has_classes "cluster-checkbox") doc)
       ++ positions (has_classes "coi-checkbox") doc.

(** The classes [retrieveCheckboxes(cluster)] looks elements up by. *)
Definition retrieved_by (cluster : option string) (el : element) : bool :=
  has_classes "allvisible-checkbox" el
  || (if truthy cluster then has_classes (default "" cluster) el
      else has_classes "cluster-checkbox" el || has_classes "coi-checkbox" el).

(** The elements some references denote. *)
Definition elements_at (doc : list element) (refs : list nat) : list element :=
  omap (λ ref, doc !! ref) refs.

(** The labels [retrieveCheckboxes(cluster)] returns, as elements. *)
Definition labels (cluster : option string) (doc : list element)
    : list element :=
  elements_at doc (List.filter (is_label doc) (candidates cluster doc)).

(** [skipCondition] of line 91. *)
Definition skipped (coiClasses : option (list string)) (el : element) : bool :=
  bool_decide (3 < length (classList el))%nat
  && negb (match coiClasses with
           | Some cs => includes cs (classList el !! 3%nat)
           | None => false
           end).

(** The status pushed for a checkbox that is not skipped. *)
Definition status_of (cluster : option string) (el : element) : status :=
  {| st_cluster := cluster; st_coi := classList el !! 3%nat;
     st_checked := control_checked el |}.

Definition statuses_from (cluster : option string)
    (coiClasses : option (list string)) (els : list element) : list status :=
  status_of cluster <$> List.filter (λ el, negb (skipped coiClasses el)) els.

(** The checkboxes consulted for a unit whose entry is [e]: the labels
    retrieved for the recorded cluster that are not individual-COI
    checkboxes of other COIs than those of the entry. *)
Definition consulted (e : entry) (el : element) : bool :=
  bool_decide (localName el = "label")
  && retrieved_by (Some (cluster e)) el
  && negb (skipped (Some (map replaceAll_space_dash (coi e))) el).

(** The checkboxes of the hierarchy of a unit, as the tab renders them
    (lines 304, 344, 462): the all-COIs checkbox, the checkbox of a cluster
    with a COI the unit belongs to, the checkbox of a COI the unit belongs
    to. *)
Definition in_hierarchy_of (unitMap : unit_map) (g : string) (el : element)
    : Prop :=
  localName el = "label" ∧
  (has_classes "allvisible-checkbox" el = true ∨
   ∃ c k, member unitMap c k g ∧
          (has_classes (cluster_classes c) el = true ∨
           has_classes (coi_classes c k) el = true)).

(** The page after the element a reference denotes went through [f]. *)
Definition restyle_at (f : element → element) (doc : list element)
    (ref : nat) : list element :=
  match doc !! ref with
  | Some el => <[ref := f el]> doc
  | None => doc
  end.

(** The style [displayCOIs] gives a checkbox. *)
Definition display_style (checked : bool) (el : element) : element :=
  set_opacity (if checked then 1%Q else Qmake 1 2)
    (set_pointer_events (if checked then "auto" else "none") el).

(** No character of the string satisfies [p]. *)
Fixpoint free_of (p : ascii → bool) (s : string) : bool :=
  match s with
  | EmptyString => true
  | String a s' => negb (p a) && free_of p s'
  end.

(** The style [initialStyles] gives a checkbox. *)
Definition initial_style (el : element) : element :=
  set_opacity (Qmake 1 2) (set_pointer_events "none" el).

(** Two elements that differ in their style at most. *)
Definition same_but_style (a b : element) : Prop :=
  localName a = localName b ∧ classList a = classList b ∧
  control_checked a = control_checked b.

(** The invocations of [createReverseMapping] in a trace. *)
Definition invocations (t : list event) : list unit_map :=
  omap (λ ev, match ev with Invoked um => Some um | _ => None end) t.

(** The calls into the mapping library in a trace. *)
Definition library_calls (t : list event) : list event :=
  List.filter (λ ev, match ev with
                     | SetOpacity _ _ | OpacityStyleExpression _ _ _ => true
                     | _ => false
                     end) t.

(** * Properties *)

(** ** The reverse mapping *)

Section reverse_mapping.
Implicit Types (unitMap : unit_map) (rm : gmap string entry).
Implicit Types (g c k : string).

Lemma add_cluster_visits rm (ce : string * cluster_entries) :
  add_cluster rm ce = foldl visit rm (ke ← ce.2; g ← ke.2; [(ce.1, ke.1, g)]).
Proof.
  unfold add_cluster. destruct ce as [c cl]; simpl.
  revert rm. induction cl as [|[k gs] cl IH]; intros rm; [done|].
  rewrite bind_cons, foldl_app; simpl. rewrite IH. f_equal.
  clear IH. revert rm. induction gs as [|g gs IH]; intros rm; [done|].
  rewrite bind_cons; simpl. apply IH.
Qed.

Lemma createReverseMapping_visits unitMap :
  createReverseMapping unitMap = foldl visit ∅ (visits unitMap).
Proof.
  unfold createReverseMapping, visits. generalize (∅ : gmap string entry).
  induction unitMap as [|ce unitMap IH]; intros rm; [done|].
  rewrite bind_cons, foldl_app; simpl.
  by rewrite IH, add_cluster_visits.
Qed.

Lemma visit_lookup rm v g :
  visit rm v !! g =
    if decide (v.2 = g)
    then Some {| cluster := v.1.1;
                 coi := from_option coi [] (rm !! g) ++ [v.1.2] |}
    else rm !! g.
Proof.
  unfold visit, add_geoid. case_decide as Hg.
  - subst g. rewrite lookup_insert_eq. by destruct (rm !! v.2).
  - by rewrite lookup_insert_ne.
Qed.

(** What the loops leave at a key, from any starting object. *)
Lemma foldl_visit_lookup rm (vs : list (string * string * string)) g :
  let hs := omap (λ v : string * string * string,
                    if decide (v.2 = g) then Some v.1 else None) vs in
  foldl visit rm vs !! g =
    match last hs with
    | Some h => Some {| cluster := h.1;
                        coi := from_option coi [] (rm !! g) ++ hs.*2 |}
    | None => rm !! g
    end.
Proof.
  induction vs as [|v vs IH] using rev_ind; [done|].
  simpl in *. rewrite foldl_app, omap_app; simpl.
  rewrite visit_lookup. case_decide as Hg; simpl.
  - rewrite last_snoc, fmap_app; simpl. do 2 f_equal.
    rewrite IH. destruct (last _) as [h|] eqn:Hlast; simpl.
    + by rewrite <-(assoc_L (++)).
    + apply last_None in Hlast. by rewrite Hlast.
  - rewrite (right_id_L [] (++)). apply IH.
Qed.

Lemma createReverseMapping_lookup unitMap g :
  createReverseMapping unitMap !! g =
    (λ c, {| cluster := c; coi := cois_of g unitMap |}) <$>
      last_cluster g unitMap.
Proof.
  rewrite createReverseMapping_visits, foldl_visit_lookup.
  unfold last_cluster, cois_of, hits. rewrite lookup_empty; simpl.
  by destruct (last _).
Qed.

Lemma elem_of_visits unitMap c k g :
  (c, k, g) ∈ visits unitMap ↔ member unitMap c k g.
Proof.
  unfold visits, member. rewrite list_elem_of_bind. split.
  - intros ([c' cl] & Hin & Hcl). apply list_elem_of_bind in Hin.
    destruct Hin as ([k' gs] & Hin & Hgs). apply list_elem_of_bind in Hin.
    destruct Hin as (g' & Hin & Hg'). apply list_elem_of_singleton in Hin.
    simpl in *. simplify_eq. eauto.
  - intros (cl & gs & Hcl & Hgs & Hg). exists (c, cl). split; [|done].
    apply list_elem_of_bind. exists (k, gs). split; [|done].
    apply list_elem_of_bind. exists g. split; [|done]. simpl. by left.
Qed.

Lemma elem_of_hits unitMap c k g :
  (c, k) ∈ hits g unitMap ↔ member unitMap c k g.
Proof.
  unfold hits. rewrite list_elem_of_omap, <-elem_of_visits. split.
  - intros ([[c' k'] g'] & Hin & Hsome). simpl in *.
    case_decide; simplify_eq. done.
  - intros Hin. exists (c, k, g). split; [done|]. simpl.
    by rewrite decide_True.
Qed.

Lemma last_cluster_None unitMap g :
  last_cluster g unitMap = None ↔ ¬ occurs unitMap g.
Proof.
  unfold last_cluster, occurs. rewrite fmap_None, last_None. split.
  - intros Hnil (c & k & Hm). apply elem_of_hits in Hm.
    rewrite Hnil in Hm. by apply not_elem_of_nil in Hm.
  - intros Hno. destruct (hits g unitMap) as [|[c k] hs] eqn:Hh; [done|].
    exfalso. apply Hno. exists c, k. apply elem_of_hits. rewrite Hh. by left.
Qed.

Lemma elem_of_cois_of unitMap k g :
  k ∈ cois_of g unitMap ↔ ∃ c, member unitMap c k g.
Proof.
  unfold cois_of. rewrite list_elem_of_fmap. split.
  - intros ([c k'] & -> & Hin). exists c. by apply elem_of_hits.
  - intros (c & Hm). exists (c, k). split; [done|]. by apply elem_of_hits.
Qed.

Lemma hits_app unitMap1 unitMap2 g :
  hits g (unitMap1 ++ unitMap2) = hits g unitMap1 ++ hits g unitMap2.
Proof. unfold hits, visits. by rewrite bind_app, omap_app. Qed.

Lemma hits_nil_iff unitMap g : hits g unitMap = [] ↔ ¬ occurs unitMap g.
Proof.
  rewrite <-last_cluster_None. unfold last_cluster.
  by rewrite fmap_None, last_None.
Qed.

Lemma hits_single_cluster c (cl : cluster_entries) g h :
  h ∈ hits g [(c, cl)] → h.1 = c.
Proof.
  destruct h as [c' k]. rewrite elem_of_hits. intros (cl' & gs & Hin & _).
  apply list_elem_of_singleton in Hin. by simplify_eq.
Qed.

Lemma createReverseMapping_is_Some unitMap g :
  is_Some (createReverseMapping unitMap !! g) ↔ occurs unitMap g.
Proof.
  rewrite createReverseMapping_lookup, fmap_is_Some.
  rewrite <-not_eq_None_Some, last_cluster_None.
  split; [|tauto]. intros Hnn.
  destruct (hits g unitMap) as [|[c k] hs] eqn:Heq.
  - by apply hits_nil_iff in Heq.
  - exists c, k. apply elem_of_hits. rewrite Heq. by left.
Qed.


(** C8. When a geoid occurs in COIs of several clusters, its entry records
    the last cluster iterated that contains it (a later cluster overwrites
    an earlier one), and its "coi" array keeps the identifiers accumulated
    from the earlier clusters and appends those of the later cluster; an
    entry holds one cluster identifier. *)
Theorem createReverseMapping_last_cluster
    unitMap1 c (cl : cluster_entries) unitMap2 g :
  (∃ k gs, (k, gs) ∈ cl ∧ g ∈ gs) →
  ¬ occurs unitMap2 g →
  ∃ e, createReverseMapping (unitMap1 ++ (c, cl) :: unitMap2) !! g = Some e ∧
       cluster e = c ∧
       coi e = from_option coi [] (createReverseMapping unitMap1 !! g)
               ++ cois_of g [(c, cl)] ∧
       (∀ k, k ∈ coi e ↔ ∃ c', member (unitMap1 ++ (c, cl) :: unitMap2) c' k g).
Proof.
  intros (k & gs & Hk & Hg) Hlater.
  assert (Hhits : hits g (unitMap1 ++ (c, cl) :: unitMap2)
                  = hits g unitMap1 ++ hits g [(c, cl)]).
  { rewrite (hits_app unitMap1), (hits_app [(c, cl)] unitMap2).
    apply hits_nil_iff in Hlater. rewrite Hlater.
    by rewrite (right_id_L [] (++)). }
  assert (Hne : hits g [(c, cl)] ≠ []).
  { intros Hnil. apply hits_nil_iff in Hnil. apply Hnil.
    exists c, k, cl, gs. split; [by left|done]. }
  assert (Hlast : last_cluster g (unitMap1 ++ (c, cl) :: unitMap2) = Some c).
  { unfold last_cluster. rewrite Hhits, last_app.
    destruct (last (hits g [(c, cl)])) as [h|] eqn:Hl.
    - simpl. f_equal. apply (hits_single_cluster c cl g).
      by apply last_Some_elem_of.
    - by apply last_None in Hl. }
  eexists. rewrite createReverseMapping_lookup, Hlast; simpl.
  split; [done|]. split; [done|]. split.
  - unfold cois_of at 1. rewrite Hhits, fmap_app. f_equal.
    rewrite createReverseMapping_lookup.
    destruct (last_cluster g unitMap1) eqn:Hl1; [done|]. simpl.
    unfold last_cluster in Hl1. apply fmap_None, last_None in Hl1.
    by rewrite Hl1.
  - intros k'. apply elem_of_cois_of.
Qed.

End reverse_mapping.

(** ** Running the effects *)

Section runs.
Implicit Types (w : world) (doc : list element) (el : element).
Implicit Types (cluster : option string) (cois : option (list string)).

Lemma bind_run {A B} (m : M A) (f : A → M B) w :
  (m ≫= f) w =
    match m w with
    | (Ok a, w') => f a w'
    | (Throw e, w') => (Throw e, w')
    end.
Proof. reflexivity. Qed.

Lemma elem_of_positions_from n (p : element → bool) doc i :
  i ∈ positions_from n p doc ↔
  ∃ el, (n ≤ i)%nat ∧ doc !! (i - n)%nat = Some el ∧ p el = true.
Proof.
  revert n. induction doc as [|el0 doc IH]; intros n; simpl.
  - split; [by intros ?%not_elem_of_nil|]. by intros (el & _ & ? & _).
  - rewrite elem_of_app, IH. split.
    + intros [Hhd|(el & Hle & Hlk & Hp)].
      * destruct (p el0) eqn:Hp0; [|by apply not_elem_of_nil in Hhd].
        apply list_elem_of_singleton in Hhd. subst i. exists el0.
        by rewrite Nat.sub_diag.
      * exists el. split; [lia|]. split; [|done].
        by replace (i - n)%nat with (S (i - S n)) by lia.
    + intros (el & Hle & Hlk & Hp).
      destruct (decide (i = n)) as [->|Hne].
      * left. rewrite Nat.sub_diag in Hlk. simplify_eq/=. rewrite Hp. by left.
      * right. exists el. split; [lia|]. split; [|done].
        by replace (i - n)%nat with (S (i - S n)) in Hlk by lia.
Qed.

Lemma elem_of_positions (p : element → bool) doc i :
  i ∈ positions p doc ↔ ∃ el, doc !! i = Some el ∧ p el = true.
Proof.
  unfold positions. rewrite elem_of_positions_from, Nat.sub_0_r.
  split; [intros (el & _ & ?); eauto|intros (el & ?); exists el; split; [lia|done]].
Qed.

(** A candidate denotes an element retrieved by one of the class names. *)
Lemma elem_of_candidates cluster doc i :
  i ∈ candidates cluster doc ↔
  ∃ el, doc !! i = Some el ∧ retrieved_by cluster el = true.
Proof.
  unfold candidates, retrieved_by. destruct (truthy cluster).
  - rewrite elem_of_app, !elem_of_positions. split.
    + intros [(el & ? & Hp)|(el & ? & Hp)]; exists el; rewrite Hp;
        (split; [done|]); by rewrite ?orb_true_r.
    + intros (el & ? & [Hp|Hp]%orb_true_iff); eauto.
  - rewrite !elem_of_app, !elem_of_positions. split.
    + intros [[(el & ? & Hp)|(el & ? & Hp)]|(el & ? & Hp)]; exists el;
        rewrite Hp; (split; [done|]); by rewrite ?orb_true_r.
    + intros (el & ? & [Hp|[Hp|Hp]%orb_true_iff]%orb_true_iff); eauto.
Qed.

Lemma retrieveCheckboxes_run cluster w :
  retrieveCheckboxes cluster w =
    (Ok (List.filter (is_label (document w)) (candidates cluster (document w))),
     logged (ConsoleDirCheckboxes (candidates cluster (document w))) w).
Proof.
  unfold retrieveCheckboxes, candidates.
  by destruct (truthy cluster).
Qed.

(** The labels among the candidates, as elements. *)
Lemma elem_of_labels cluster doc el :
  el ∈ labels cluster doc ↔
  el ∈ doc ∧ localName el = "label" ∧ retrieved_by cluster el = true.
Proof.
  unfold labels, elements_at. rewrite list_elem_of_omap. split.
  - intros (i & Hin & Hlk). apply list_elem_of_In, filter_In in Hin.
    destruct Hin as [Hin Hlab]. apply list_elem_of_In, elem_of_candidates in Hin.
    destruct Hin as (el' & Hlk' & Hret). unfold is_label in Hlab.
    rewrite Hlk in Hlab. simplify_eq. apply bool_decide_eq_true in Hlab.
    split; [|done]. apply list_elem_of_lookup. eauto.
  - intros (Hin & Hlab & Hret). apply list_elem_of_lookup in Hin.
    destruct Hin as [i Hlk]. exists i. split; [|done].
    apply list_elem_of_In, filter_In. split.
    + apply list_elem_of_In, elem_of_candidates. eauto.
    + unfold is_label. rewrite Hlk. by apply bool_decide_eq_true.
Qed.

Lemma filter_is_label_valid doc (refs : list nat) :
  Forall (λ ref, is_Some (doc !! ref)) (List.filter (is_label doc) refs).
Proof.
  apply Forall_forall. intros i Hin. apply list_elem_of_In, filter_In in Hin.
  destruct Hin as [_ Hlab]. unfold is_label in Hlab.
  by destruct (doc !! i).
Qed.

Lemma for_of_push_status cluster coiClasses (refs : list nat) acc w :
  Forall (λ ref, is_Some (document w !! ref)) refs →
  for_of (push_status cluster coiClasses) acc refs w =
    (Ok (acc ++ statuses_from cluster coiClasses
                  (elements_at (document w) refs)), w).
Proof.
  intros Hvalid. revert acc.
  induction Hvalid as [|i refs [el Hel] _ IH]; intros acc.
  - unfold statuses_from; simpl. by rewrite (right_id_L [] (++)).
  - cbn [for_of]. rewrite bind_run. unfold push_status at 1.
    rewrite bind_run. unfold deref. rewrite Hel.
    unfold statuses_from, elements_at in *. cbn [omap list_omap].
    rewrite Hel. cbn [List.filter fmap list_fmap].
    fold (skipped coiClasses el).
    destruct (skipped coiClasses el); cbn [negb fmap list_fmap].
    + apply IH.
    + unfold mret, M_ret. rewrite IH. by rewrite <-(assoc_L (++)).
Qed.

Lemma getCheckboxStatuses_run cluster cois w :
  getCheckboxStatuses cluster cois w =
    (Ok (statuses_from cluster (map replaceAll_space_dash <$> cois)
           (labels cluster (document w))),
     logged (ConsoleDirCheckboxes (candidates cluster (document w))) w).
Proof.
  unfold getCheckboxStatuses. rewrite bind_run, retrieveCheckboxes_run.
  rewrite for_of_push_status; [done|]. apply filter_is_label_valid.
Qed.

Lemma foldl_andb_forallb {A} (f : A → bool) (l : list A) b :
  foldl (λ acc x, acc && f x) b l = b && forallb f l.
Proof.
  revert b. induction l as [|x l IH]; intros b; simpl.
  - by rewrite andb_true_r.
  - by rewrite IH, andb_assoc.
Qed.

Lemma checkIfAllVisible_run cluster cois w :
  checkIfAllVisible cluster cois w =
    (Ok (forallb st_checked
           (statuses_from cluster (map replaceAll_space_dash <$> cois)
              (labels cluster (document w)))),
     logged (ConsoleDirCheckboxes (candidates cluster (document w))) w).
Proof.
  unfold checkIfAllVisible. rewrite bind_run, getCheckboxStatuses_run.
  unfold mret, M_ret. by rewrite foldl_andb_forallb.
Qed.

Lemma skipped_no_cois el :
  skipped None el = bool_decide (3 < length (classList el))%nat.
Proof. unfold skipped. by rewrite andb_true_r. Qed.

(** C10. checkIfAllVisible returns true exactly when every status that
    getCheckboxStatuses(cluster, cois) returns has checked = true, so it
    returns true when there is no status; and with cois = null the statuses
    come from the retrieved checkboxes with at most three classes: every
    checkbox with more than three classes is skipped, and no status names
    a COI. *)
Theorem checkIfAllVisible_iff_statuses_checked cluster cois w :
  ∃ statuses b w',
    getCheckboxStatuses cluster cois w = (Ok statuses, w') ∧
    checkIfAllVisible cluster cois w = (Ok b, w') ∧
    (b = true ↔ ∀ st, st ∈ statuses → st_checked st = true) ∧
    (statuses = [] → b = true) ∧
    ∃ refs,
      retrieveCheckboxes cluster w = (Ok refs, w') ∧
      getCheckboxStatuses cluster None w =
        (Ok (status_of cluster <$>
               List.filter
                 (λ el, bool_decide (length (classList el) ≤ 3)%nat)
                 (elements_at (document w) refs)), w') ∧
      ∀ st, st ∈ status_of cluster <$>
                 List.filter
                   (λ el, bool_decide (length (classList el) ≤ 3)%nat)
                   (elements_at (document w) refs) →
            st_coi st = None.
Proof.
  eexists _, _, _. split; [apply getCheckboxStatuses_run|].
  split; [apply checkIfAllVisible_run|].
  split; [|split].
  - rewrite forallb_forall. by setoid_rewrite list_elem_of_In.
  - by intros ->.
  - eexists. split; [apply retrieveCheckboxes_run|]. split.
    + rewrite getCheckboxStatuses_run. do 2 f_equal.
      unfold statuses_from, labels. f_equal. apply filter_ext.
      intros el. rewrite skipped_no_cois.
      apply eq_true_iff_eq.
      rewrite negb_true_iff, bool_decide_eq_false, bool_decide_eq_true. lia.
    + intros st (el & -> & Hin)%list_elem_of_fmap.
      apply list_elem_of_In, filter_In in Hin. destruct Hin as [_ Hlen].
      apply bool_decide_eq_true in Hlen. simpl.
      apply lookup_ge_None. simpl in Hlen. lia.
Qed.

(** The conjunction of the statuses is the conjunction over the consulted
    elements of the page. *)
Lemma statuses_checked_consulted (e : entry) doc :
  forallb st_checked
    (statuses_from (Some (cluster e))
       (Some (map replaceAll_space_dash (coi e)))
       (labels (Some (cluster e)) doc))
  = forallb control_checked (List.filter (consulted e) doc).
Proof.
  apply eq_true_iff_eq. rewrite !forallb_forall. unfold statuses_from. split.
  - intros Hall el [Hin Hcons]%filter_In. unfold consulted in Hcons.
    apply andb_true_iff in Hcons as [[Hlab Hret]%andb_true_iff Hskip].
    apply bool_decide_eq_true in Hlab.
    apply (Hall (status_of (Some (cluster e)) el)).
    apply list_elem_of_In, list_elem_of_fmap. exists el. split; [done|].
    apply list_elem_of_In, filter_In. split; [|done].
    apply list_elem_of_In, elem_of_labels. by rewrite <-list_elem_of_In in Hin.
  - intros Hall st (el & -> & Hin)%list_elem_of_In%list_elem_of_fmap.
    apply list_elem_of_In, filter_In in Hin as [Hin Hskip].
    apply list_elem_of_In, elem_of_labels in Hin as (Hin & Hlab & Hret).
    simpl. apply Hall, filter_In. split; [by apply list_elem_of_In|].
    unfold consulted. rewrite Hret, Hskip.
    by rewrite (bool_decide_eq_true_2 _ Hlab).
Qed.

Lemma tooltip_callback_run (rm : gmap string entry) identifier
    (f : feature) rest (e : entry) w :
  rm !! property_key (properties f !! identifier) = Some e →
  tooltip_callback rm identifier (f :: rest) w =
    (Ok (if forallb control_checked (List.filter (consulted e) (document w))
         then Some (tooltip_of (coi e)) else None),
     logged (ConsoleDirCheckboxes
               (candidates (Some (cluster e)) (document w))) w).
Proof.
  intros He. unfold tooltip_callback. rewrite He, bind_run.
  rewrite checkIfAllVisible_run, statuses_checked_consulted.
  by destruct (forallb _ _).
Qed.

Lemma tooltip_callback_ok (rm : gmap string entry) identifier features w :
  ∃ r w', tooltip_callback rm identifier features w = (Ok r, w') ∧
          document w' = document w ∧
          invocations (trace w') = invocations (trace w).
Proof.
  destruct features as [|f rest]; [by eexists _, _|].
  destruct (rm !! property_key (properties f !! identifier)) as [e|] eqn:He.
  - eexists _, _. split; [by apply tooltip_callback_run|]. split; [done|].
    unfold invocations. simpl. rewrite omap_app. simpl.
    by rewrite (right_id_L [] (++)).
  - eexists _, _. unfold tooltip_callback. by rewrite He.
Qed.

Lemma watchTooltips_run (unitMap : unit_map) identifier w :
  watchTooltips unitMap identifier w =
    (Ok (tooltip_callback (createReverseMapping unitMap) identifier),
     logged (Invoked unitMap) w).
Proof. reflexivity. Qed.

(** Which checkboxes the tooltip function consults.  For a hovered feature
    whose geoid is a key of the reverse mapping, with entry [e], the
    function returns the tooltip listing exactly the COI names of [e] when
    every label consulted for [e] is checked, and null when one of them is
    unchecked; the labels consulted are the all-COIs checkbox and the
    labels carrying the class of the cluster that [e] records, except the
    labels with more than three classes whose fourth class is not the class
    of a COI name of [e]. *)
Theorem tooltip_follows_recorded_cluster
    (unitMap : unit_map) identifier (f : feature) rest (e : entry) w0 w :
  createReverseMapping unitMap !! property_key (properties f !! identifier)
    = Some e →
  ∃ callback,
    (watchTooltips unitMap identifier w0).1 = Ok callback ∧
    ((∀ el, el ∈ document w → consulted e el = true →
            control_checked el = true) →
     (callback (f :: rest) w).1 = Ok (Some (tooltip_of (coi e)))) ∧
    ((∃ el, el ∈ document w ∧ consulted e el = true ∧
            control_checked el = false) →
     (callback (f :: rest) w).1 = Ok None).
Proof.
  intros He. eexists. split; [by rewrite watchTooltips_run|].
  rewrite (tooltip_callback_run _ _ _ _ e) by done. simpl.
  destruct (forallb _ _) eqn:Hall.
  - split; [done|]. intros (el & Hin & Hcons & Hun).
    rewrite forallb_forall in Hall.
    rewrite (Hall el) in Hun; [done|].
    apply filter_In. split; [by apply list_elem_of_In|done].
  - split; [|done]. intros Hchecked.
    assert (forallb control_checked
              (List.filter (consulted e) (document w)) = true) as Htrue.
    { apply forallb_forall. intros el [Hin Hcons]%filter_In.
      apply Hchecked; [by apply list_elem_of_In|done]. }
    congruence.
Qed.

(** C9. The tooltip function returned by watchTooltips returns null on an
    empty array of features and changes nothing: the page is as it was and
    no effect is recorded. *)
Theorem tooltip_of_no_features (unitMap : unit_map) identifier w0 :
  ∃ callback,
    (watchTooltips unitMap identifier w0).1 = Ok callback ∧
    ∀ w, callback [] w = (Ok None, w).
Proof. eexists. split; [by rewrite watchTooltips_run|done]. Qed.

(** ** Clicks *)

Lemma click_handler_run (units : layer) (rm : gmap string entry) identifier
    (f : feature) rest w :
  properties f !! "source" = Some (sourceLayer units) →
  click_handler units rm identifier (f :: rest) w =
    match rm !! property_key (properties f !! identifier) with
    | Some e =>
        let w' := logged (ConsoleDirCheckboxes
                            (candidates (Some (cluster e)) (document w))) w in
        (Ok (),
         if forallb control_checked (List.filter (consulted e) (document w))
         then logged (WindowOpen "/coi-info/") w' else w')
    | None => (Throw TypeError, w)
    end.
Proof.
  intros Hsrc. unfold click_handler. cbn [map]. rewrite decide_True by done.
  rewrite bind_run. unfold entry_fields.
  destruct (rm !! _) as [e|]; [|done].
  cbn [mret M_ret]. rewrite bind_run, checkIfAllVisible_run.
  rewrite statuses_checked_consulted.
  by destruct (forallb _ _).
Qed.


(** ** Toggles *)

Lemma library_calls_app (t1 t2 : list event) :
  library_calls (t1 ++ t2) = library_calls t1 ++ library_calls t2.
Proof. unfold library_calls. apply List.filter_app. Qed.


(** The callback of an individual COI passes [unitMap[cluster][name]] on. *)
Lemma toggleIndividualCOI_run c name (units : layer) (unitMap : unit_map)
    (cl : cluster_entries) checked w :
  property unitMap c = Some cl →
  toggleIndividualCOI c name units unitMap checked w =
    (Ok (),
     logged (OpacityStyleExpression (VLayer units)
               (from_option VStrings VUndefined (property cl name))
               (VBoolean checked)) w).
Proof.
  intros Hc. unfold toggleIndividualCOI. rewrite Hc.
  by destruct (property cl name).
Qed.

Lemma toggleCluster_run c (units : layer) (unitMap : unit_map) checked w :
  toggleCluster c units unitMap checked w =
    (Throw ReferenceError,
     logged (ConsoleDirStatuses
               (statuses_from None None (labels None (document w))))
       (logged (ConsoleDirCheckboxes (candidates None (document w))) w)).
Proof.
  unfold toggleCluster. rewrite bind_run, getCheckboxStatuses_run.
  reflexivity.
Qed.

(** C2 (what the code does).  Invoked with any [checked], the callback
    that toggleCluster returns logs the statuses and then throws a
    ReferenceError on the unbound identifier [geoids]: it never reaches
    opacityStyleExpression, so no unit of the cluster is masked. *)
Theorem toggleCluster_throws c (units : layer) (unitMap : unit_map) checked w :
  ∃ w', toggleCluster c units unitMap checked w = (Throw ReferenceError, w') ∧
        document w' = document w ∧
        library_calls (trace w') = library_calls (trace w).
Proof.
  eexists. split; [apply toggleCluster_run|]. split; [done|].
  simpl. rewrite !library_calls_app. simpl.
  by rewrite !(right_id_L [] (++)).
Qed.

(** ** Styling *)

Lemma update_run ref (f : element → element) el w :
  document w !! ref = Some el →
  update ref f w =
    (Ok (), {| document := <[ref := f el]> (document w); trace := trace w |}).
Proof. intros Hel. unfold update. by rewrite Hel. Qed.

(** A loop whose body restyles the element it is given and records the
    events [evs]. *)
Lemma for_of_restyle (body : unit → nat → M unit) (f : element → element)
    (evs : list event) :
  (∀ ref el w, document w !! ref = Some el →
     body () ref w =
       (Ok (), {| document := <[ref := f el]> (document w);
                  trace := trace w ++ evs |})) →
  ∀ (refs : list nat) w,
    Forall (λ ref, ref < length (document w))%nat refs →
    for_of body () refs w =
      (Ok (), {| document := foldl (restyle_at f) (document w) refs;
                 trace := trace w ++ (refs ≫= λ _, evs) |}).
Proof.
  intros Hbody refs. induction refs as [|ref refs IH]; intros w Hvalid.
  - simpl. destruct w. unfold mret, M_ret. simpl.
    by rewrite (right_id_L [] (++)).
  - apply Forall_cons in Hvalid as [Hlt Hvalid].
    apply lookup_lt_is_Some_2 in Hlt as [el Hel].
    cbn [for_of]. rewrite bind_run, (Hbody _ el) by done.
    rewrite IH; cbn [document trace foldl].
    + replace (restyle_at f (document w) ref) with (<[ref := f el]> (document w))
        by (unfold restyle_at; by rewrite Hel).
      by rewrite bind_cons, (assoc_L (++)).
    + by rewrite length_insert.
Qed.

Lemma candidates_valid cluster doc :
  Forall (λ ref, ref < length doc)%nat
    (List.filter (is_label doc) (candidates cluster doc)).
Proof.
  eapply Forall_impl; [apply filter_is_label_valid|].
  intros ref. apply lookup_lt_is_Some_1.
Qed.

Lemma displayCOIs_run (units : layer) checked w :
  let refs := drop 1 (List.filter (is_label (document w))
                        (candidates None (document w))) in
  displayCOIs units checked w =
    (Ok (),
     {| document := foldl (restyle_at (display_style checked)) (document w) refs;
        trace := (trace w ++ [ConsoleDirCheckboxes (candidates None (document w))])
                 ++ (refs ≫= λ _,
                       [SetOpacity units (if checked then Qmake 1 3 else 0%Q)])
     |}).
Proof.
  intros refs. unfold displayCOIs.
  rewrite bind_run, retrieveCheckboxes_run. fold refs.
  rewrite (for_of_restyle _ (display_style checked)
             [SetOpacity units (if checked then Qmake 1 3 else 0%Q)]).
  - done.
  - intros ref el w1 Hel. rewrite bind_run, (update_run _ _ el) by done.
    rewrite bind_run. unfold update. simpl.
    rewrite list_lookup_insert_eq by (by eapply lookup_lt_Some).
    by rewrite list_insert_insert_eq.
  - simpl. apply Forall_drop, candidates_valid.
Qed.

Lemma initialStyles_run w :
  let refs := drop 1 (List.filter (is_label (document w))
                        (candidates None (document w))) in
  initialStyles w =
    (Ok (),
     {| document :=
          foldl (restyle_at (λ el, set_opacity (Qmake 1 2)
                                     (set_pointer_events "none" el)))
                (document w) refs;
        trace := trace w ++ [ConsoleDirCheckboxes (candidates None (document w))]
     |}).
Proof.
  intros refs. unfold initialStyles.
  rewrite bind_run, retrieveCheckboxes_run. fold refs.
  rewrite (for_of_restyle _ (λ el, set_opacity (Qmake 1 2)
                                     (set_pointer_events "none" el)) []).
  - assert (∀ l : list nat, l ≫= (λ _, @nil event) = []) as ->.
    { induction l as [|? l IHl]; [done|]. by rewrite bind_cons. }
    unfold logged. cbn [document trace].
    by rewrite (right_id_L [] (++)).
  - intros ref el w1 Hel. rewrite bind_run, (update_run _ _ el) by done.
    unfold update. simpl.
    rewrite list_lookup_insert_eq by (by eapply lookup_lt_Some).
    by rewrite list_insert_insert_eq, (right_id_L [] (++)).
  - simpl. apply Forall_drop, candidates_valid.
Qed.

Lemma restyle_at_lookup (f : element → element) doc ref i :
  restyle_at f doc ref !! i =
    if decide (i = ref) then f <$> doc !! i else doc !! i.
Proof.
  unfold restyle_at. destruct (doc !! ref) as [el|] eqn:Hel.
  - case_decide as Hi.
    + subst i. rewrite Hel. simpl.
      apply list_lookup_insert_eq. by eapply lookup_lt_Some.
    + by apply list_lookup_insert_ne.
  - case_decide as Hi; [|done]. subst i. by rewrite Hel.
Qed.

Lemma foldl_restyle_at_lookup (f : element → element) (refs : list nat) doc i :
  (∀ el, f (f el) = f el) →
  foldl (restyle_at f) doc refs !! i =
    if decide (i ∈ refs) then f <$> doc !! i else doc !! i.
Proof.
  intros Hidem. revert doc.
  induction refs as [|ref refs IH]; intros doc; [done|].
  cbn [foldl]. rewrite IH, restyle_at_lookup.
  destruct (decide (i = ref)) as [->|Hne].
  - rewrite (decide_True (P := ref ∈ ref :: refs)) by by left.
    case_decide; [|done]. destruct (doc !! ref); simpl; [|done].
    by rewrite Hidem.
  - destruct (decide (i ∈ refs)) as [Hin|Hnin].
    + rewrite decide_True; [done|]. by right.
    + rewrite decide_False; [done|].
      by intros [?|?]%elem_of_cons.
Qed.

Lemma library_calls_SetOpacity (units : layer) q (refs : list nat) :
  library_calls (refs ≫= λ _, [SetOpacity units q])
  = (λ _, SetOpacity units q) <$> refs.
Proof.
  induction refs as [|ref refs IH]; [done|].
  rewrite bind_cons, library_calls_app, IH. done.
Qed.

(** What the display callback does on any page: every checkbox but the
    first one retrieved is restyled, and the layer's opacity is set once
    per such checkbox. *)
Lemma displayCOIs_effect (units : layer) checked w :
  let refs := drop 1 (List.filter (is_label (document w))
                        (candidates None (document w))) in
  ∃ w', displayCOIs units checked w = (Ok (), w') ∧
        (∀ i, document w' !! i =
                if decide (i ∈ refs)
                then display_style checked <$> document w !! i
                else document w !! i) ∧
        library_calls (trace w') =
          library_calls (trace w)
          ++ ((λ _, SetOpacity units (if checked then Qmake 1 3 else 0%Q))
                <$> refs).
Proof.
  intros refs. eexists. split; [apply displayCOIs_run|]. split.
  - intros i. cbn [document]. by apply foldl_restyle_at_lookup.
  - cbn [trace]. rewrite !library_calls_app, library_calls_SetOpacity.
    simpl. by rewrite (right_id_L [] (++)).
Qed.

(** C7 (what the code does).  On the page the tab has when there is no
    cluster, where the all-COIs checkbox is the only checkbox, the callback
    returned by displayCOIs returns without a call to units.setOpacity,
    whatever [checked] is: the layer's opacity is set inside the loop over
    the other checkboxes, of which there is none. *)
Theorem displayCOIs_without_clusters (units : layer) checked
    (state : string → bool) (t : list event) :
  let w := {| document := page_of [] state; trace := t |} in
  ∃ w', displayCOIs units checked w = (Ok (), w') ∧
        document w' = document w ∧
        library_calls (trace w') = library_calls t.
Proof.
  intros w. eexists. split; [apply displayCOIs_run|]. split; [done|].
  cbn [trace]. rewrite !library_calls_app. simpl.
  by rewrite !(right_id_L [] (++)).
Qed.

(** ** A session *)




End runs.

(** ** The cut-edges panel *)

(** C6. CutEdgesSection is a stub: whatever state, uiState and dispatch
    are, it returns the panel's template with 0 shown as the number of cut
    edges and the empty list shown as the list of cut edges; its result
    does not depend on its arguments. *)
Theorem CutEdgesSection_constant {S U D S' U' D' : Type}
    (state : S) (uiState : U) (dispatch : D)
    (state' : S') (uiState' : U') (dispatch' : D') :
  CutEdgesSection state uiState dispatch
    = html CutEdgesPanel [TNum 0; TArray []] ∧
  shown (CutEdgesSection state uiState dispatch) = [TNum 0; TArray []] ∧
  CutEdgesSection state uiState dispatch
    = CutEdgesSection state' uiState' dispatch'.
Proof. done. Qed.

(** ** Concrete runs *)

(** A unit listed twice in one COI and once in another cluster: the last
    cluster wins and the COI identifiers pile up, repetitions included. *)
Example createReverseMapping_two_clusters :
  map_to_list
    (createReverseMapping
       [("A", [("x", ["g"; "h"; "g"]); ("z", ["h"])]); ("B", [("y", ["g"])])])
  = [("g", {| cluster := "B"; coi := ["x"; "x"; "y"] |});
     ("h", {| cluster := "A"; coi := ["x"; "z"] |})].
Proof. by vm_compute. Qed.

(** In one cluster, unchecking the checkbox of a COI of the unit hides the
    tooltip. *)
Example tooltip_hidden_by_unchecked_coi :
  (tooltip_callback (createReverseMapping [("A", [("x y", ["g"])])]) "GEOID20"
     [{| properties := {["GEOID20" := "g"]} |}]
     {| document :=
          page_of [{| plan_id := "A"; parts := ["x y"; "q"] |}]
                  (λ classes, negb (String.eqb classes "coi-checkbox A x-y"));
        trace := [] |}).1
  = Ok None.
Proof. by vm_compute. Qed.

(** The checkbox of another COI of the cluster does not matter. *)
Example tooltip_shown_with_other_coi_unchecked :
  (tooltip_callback (createReverseMapping [("A", [("x y", ["g"])])]) "GEOID20"
     [{| properties := {["GEOID20" := "g"]} |}]
     {| document :=
          page_of [{| plan_id := "A"; parts := ["x y"; "q"] |}]
                  (λ classes, negb (String.eqb classes "coi-checkbox A q"));
        trace := [] |}).1
  = Ok (Some (tooltip_of ["x y"])).
Proof. by vm_compute. Qed.

(** With one cluster on the page, the display callback restyles its
    checkbox and sets the layer's opacity. *)
Example displayCOIs_one_cluster :
  library_calls
    (trace (displayCOIs {| sourceLayer := "units" |} true
              {| document := page_of [{| plan_id := "A"; parts := [] |}]
                                     (λ _, true);
                 trace := [] |}).2)
  = [SetOpacity {| sourceLayer := "units" |} (Qmake 1 3)].
Proof. by vm_compute. Qed.

(** C8, on a unit of two clusters: ["g"] is in COI ["x"] of cluster ["A"]
    and in COI ["y"] of cluster ["B"]. *)
Lemma createReverseMapping_last_cluster_witness :
  ∃ e, createReverseMapping
         ([("A", [("x", ["g"])])] ++ ("B", [("y", ["g"])]) :: []) !! "g"
       = Some e ∧
       cluster e = "B" ∧
       coi e = from_option coi []
                 (createReverseMapping [("A", [("x", ["g"])])] !! "g")
               ++ cois_of "g" [("B", [("y", ["g"])])] ∧
       (∀ k, k ∈ coi e ↔
             ∃ c', member ([("A", [("x", ["g"])])]
                           ++ ("B", [("y", ["g"])]) :: []) c' k "g").
Proof.
  apply createReverseMapping_last_cluster.
  - exists "y", ["g"]. split; by left.
  - intros (c & k & cl & gs & Hin & _). by apply not_elem_of_nil in Hin.
Defined.

(** The labels consulted, on a unit of one COI with every checkbox
    checked. *)
Lemma tooltip_follows_recorded_cluster_witness :
  let unitMap : unit_map := [("A", [("x", ["g"])])] in
  let page := page_of [{| plan_id := "A"; parts := ["x"] |}] (λ _, true) in
  let hovered := {| properties := {["GEOID20" := "g"]} |} in
  let w := {| document := page; trace := [] |} in
  let e := {| cluster := "A"; coi := ["x"] |} in
  ∃ callback,
    (watchTooltips unitMap "GEOID20" {| document := []; trace := [] |}).1
      = Ok callback ∧
    ((∀ el, el ∈ document w → consulted e el = true →
            control_checked el = true) →
     (callback (hovered :: []) w).1 = Ok (Some (tooltip_of (coi e)))) ∧
    ((∃ el, el ∈ document w ∧ consulted e el = true ∧
            control_checked el = false) →
     (callback (hovered :: []) w).1 = Ok None).
Proof.
  cbv zeta. apply tooltip_follows_recorded_cluster.
  vm_compute. reflexivity.
Defined.

(** C3 (what the code does).  On a unit of two clusters the tooltip is
    shown although a checkbox of the unit's hierarchy is unchecked, against
    the comments of lines 79-82 and 206-212.  ["g"] is in COI ["x"] of
    cluster ["A"] and in COI ["y"] of cluster ["B"]; the checkbox of COI
    ["x"] is unchecked and every other checkbox is checked.  The tooltip
    function returns the tooltip, listing ["x"] and ["y"], and not null:
    the entry of ["g"] records cluster ["B"] alone, and the checkbox of COI
    ["x"], which carries the class of cluster ["A"], is never retrieved. *)
Lemma tooltip_shown_with_unchecked_coi :
  let unitMap : unit_map := [("A", [("x", ["g"])]); ("B", [("y", ["g"])])] in
  let page :=
    page_of [{| plan_id := "A"; parts := ["x"] |};
             {| plan_id := "B"; parts := ["y"] |}]
            (λ classes, negb (String.eqb classes "coi-checkbox A x")) in
  let hovered := {| properties := {["GEOID20" := "g"]} |} in
  let w := {| document := page; trace := [] |} in
  ∃ callback e el,
    (watchTooltips unitMap "GEOID20" {| document := []; trace := [] |}).1
      = Ok callback ∧
    createReverseMapping unitMap !! "g" = Some e ∧
    el ∈ page ∧ in_hierarchy_of unitMap "g" el ∧ control_checked el = false ∧
    (callback [hovered] w).1 = Ok (Some (tooltip_of ["x"; "y"])) ∧
    (callback [hovered] w).1 ≠ Ok None.
Proof.
  cbv zeta. eexists _, _, (toggle false "coi-checkbox A x").
  split; [reflexivity|]. split; [by vm_compute|].
  split; [|split; [|split; [reflexivity|split; [by vm_compute|by vm_compute]]]].
  - apply list_elem_of_lookup. by exists 2%nat.
  - split; [done|]. right. exists "A", "x". split; [|by right].
    exists [("x", ["g"])], ["g"]. repeat split; by left.
Qed.


(** * Further properties *)

(** ** The reverse mapping, entry by entry *)

Section reverse_mapping_entries.
Implicit Types (unitMap : unit_map) (g c k : string) (e : entry).

Lemma cois_of_bind unitMap g :
  cois_of g unitMap =
    ce ← unitMap; ke ← ce.2; g' ← ke.2;
    if decide (g' = g) then [ke.1] else [].
Proof.
  unfold cois_of, hits, visits.
  induction unitMap as [|[c cl] unitMap IH]; [done|].
  rewrite !bind_cons, omap_app, fmap_app, IH. f_equal. simpl.
  clear IH. induction cl as [|[k gs] cl IH]; [done|].
  rewrite !bind_cons, omap_app, fmap_app, IH. f_equal. simpl.
  clear IH. induction gs as [|g' gs IH]; [done|].
  rewrite !bind_cons, omap_app, fmap_app, IH. f_equal. simpl.
  by case_decide.
Qed.

(** The "coi" array of an entry lists the COI identifiers of the unit in
    the order the loops meet them, one per occurrence of the unit: a unit
    listed twice in the array of a COI has that COI twice. *)
Theorem createReverseMapping_coi_array unitMap g e :
  createReverseMapping unitMap !! g = Some e →
  coi e = (ce ← unitMap; ke ← ce.2; g' ← ke.2;
           if decide (g' = g) then [ke.1] else []).
Proof.
  rewrite createReverseMapping_lookup. intros He.
  destruct (last_cluster g unitMap); simplify_eq/=. apply cois_of_bind.
Qed.

Lemma createReverseMapping_coi_array_witness :
  coi {| cluster := "B"; coi := ["x"; "x"; "y"] |} =
    (ce ← [("A", [("x", ["g"; "h"; "g"])]); ("B", [("y", ["g"])])];
     ke ← ce.2; g' ← ke.2;
     if decide (g' = "g") then [ke.1] else []).
Proof.
  apply (createReverseMapping_coi_array
           [("A", [("x", ["g"; "h"; "g"])]); ("B", [("y", ["g"])])] "g").
  by vm_compute.
Defined.

(** An entry is never empty-handed: its "coi" array is not empty, and the
    cluster it records is a cluster of the unit map one of whose COIs
    contains the unit. *)
Theorem createReverseMapping_entry_sound unitMap g e :
  createReverseMapping unitMap !! g = Some e →
  coi e ≠ [] ∧ ∃ k, k ∈ coi e ∧ member unitMap (cluster e) k g.
Proof.
  rewrite createReverseMapping_lookup. unfold last_cluster, cois_of.
  destruct (last (hits g unitMap)) as [[c k]|] eqn:Hlast; [|done].
  simpl. intros ?; simplify_eq/=.
  apply last_Some_elem_of in Hlast. split.
  - intros Hnil. apply fmap_nil_inv in Hnil. rewrite Hnil in Hlast.
    by apply not_elem_of_nil in Hlast.
  - exists k. split; [|by apply elem_of_hits].
    apply list_elem_of_fmap. by exists (c, k).
Qed.

Lemma createReverseMapping_entry_sound_witness :
  coi {| cluster := "A"; coi := ["x"] |} ≠ [] ∧
  ∃ k, k ∈ coi {| cluster := "A"; coi := ["x"] |} ∧
       member [("A", [("x", ["g"])])]
         (cluster {| cluster := "A"; coi := ["x"] |}) k "g".
Proof.
  apply (createReverseMapping_entry_sound [("A", [("x", ["g"])])] "g").
  by vm_compute.
Defined.

(** Building from two unit maps laid end to end: a unit of the second map
    takes its cluster from there and has the COIs of the first map before
    those of the second; another unit keeps the entry of the first map.
    The keys are the keys of the two objects together. *)
Theorem createReverseMapping_app unitMap1 unitMap2 g :
  createReverseMapping (unitMap1 ++ unitMap2) !! g =
    match createReverseMapping unitMap2 !! g with
    | Some e2 =>
        Some {| cluster := cluster e2;
                coi := from_option coi [] (createReverseMapping unitMap1 !! g)
                       ++ coi e2 |}
    | None => createReverseMapping unitMap1 !! g
    end ∧
  dom (createReverseMapping (unitMap1 ++ unitMap2))
    = dom (createReverseMapping unitMap1) ∪ dom (createReverseMapping unitMap2).
Proof.
  assert (Hone : ∀ g,
    createReverseMapping (unitMap1 ++ unitMap2) !! g =
      match createReverseMapping unitMap2 !! g with
      | Some e2 =>
          Some {| cluster := cluster e2;
                  coi := from_option coi []
                           (createReverseMapping unitMap1 !! g) ++ coi e2 |}
      | None => createReverseMapping unitMap1 !! g
      end).
  { clear g. intros g. rewrite !createReverseMapping_lookup.
    unfold last_cluster, cois_of. rewrite hits_app, last_app, fmap_app.
    destruct (last (hits g unitMap2)) as [h2|] eqn:Hl2; simpl.
    - do 2 f_equal.
      destruct (last (hits g unitMap1)) as [h1|] eqn:Hl1; [done|].
      apply last_None in Hl1. by rewrite Hl1.
    - apply last_None in Hl2. rewrite Hl2. simpl.
      by rewrite (right_id_L [] (++)). }
  split; [apply Hone|].
  apply set_eq. intros g'. rewrite elem_of_union, !elem_of_dom, Hone.
  destruct (createReverseMapping unitMap2 !! g') as [e2|].
  - split; [intros _; right|]; by eauto.
  - split; [by left|]. intros [?|[? ?]]; done.
Qed.

End reverse_mapping_entries.

(** ** Retrieval and visibility *)

Section visibility.
Implicit Types (w : world) (doc : list element) (el : element).
Implicit Types (cluster : option string) (cois : option (list string)).
Implicit Types (rm : gmap string entry) (f : feature).

(** retrieveCheckboxes never throws and leaves the page as it is.  What it
    writes to the console, once, is the unfiltered array: the references
    found by class, in lookup order (allvisible-checkbox first, then the
    cluster's class, or cluster-checkbox and then coi-checkbox without a
    cluster), paragraphs included.  What it returns is that array filtered:
    the references, in the same order, of the elements that are labels, so
    a reference is returned exactly when it denotes a label of the page
    looked up by class. *)
Theorem retrieveCheckboxes_labels_only cluster w :
  let by_class names := positions (has_classes names) (document w) in
  let unfiltered :=
    if truthy cluster
    then by_class "allvisible-checkbox" ++ by_class (default "" cluster)
    else (by_class "allvisible-checkbox" ++ by_class "cluster-checkbox")
         ++ by_class "coi-checkbox" in
  retrieveCheckboxes cluster w =
    (Ok (List.filter (is_label (document w)) unfiltered),
     {| document := document w;
        trace := trace w ++ [ConsoleDirCheckboxes unfiltered] |}) ∧
  (∀ names ref, ref ∈ by_class names ↔
                ∃ el, document w !! ref = Some el ∧ has_classes names el = true) ∧
  (∀ ref, ref ∈ List.filter (is_label (document w)) unfiltered ↔
          ∃ el, document w !! ref = Some el ∧ localName el = "label" ∧
                retrieved_by cluster el = true).
Proof.
  intros by_class unfiltered.
  assert (unfiltered = candidates cluster (document w)) as ->.
  { unfold unfiltered, candidates. by destruct (truthy cluster). }
  split; [apply retrieveCheckboxes_run|].
  split; [intros names ref; apply elem_of_positions|].
  intros ref. rewrite list_elem_of_In, filter_In, <-list_elem_of_In.
  rewrite elem_of_candidates. unfold is_label. split.
  - intros [(el & Hel & Hret) Hlab]. rewrite Hel in Hlab.
    apply bool_decide_eq_true in Hlab. eauto.
  - intros (el & Hel & Hlab & Hret). split; [by eauto|].
    rewrite Hel. by apply bool_decide_eq_true.
Qed.

Lemma skipped_fewer (cs cs' : list string) el :
  (∀ k, k ∈ cs → k ∈ cs') →
  skipped (Some cs') el = true → skipped (Some cs) el = true.
Proof.
  intros Hsub. unfold skipped.
  intros [Hlen Hnot]%andb_true_iff. rewrite Hlen. simpl.
  apply negb_true_iff in Hnot. apply negb_true_iff.
  unfold includes in *. destruct (classList el !! 3%nat) as [c|]; [|done].
  apply bool_decide_eq_false in Hnot. apply bool_decide_eq_false.
  intros Hin. by apply Hnot, Hsub.
Qed.

Lemma skipped_null el : skipped None el = skipped (Some []) el.
Proof.
  unfold skipped, includes. destruct (classList el !! 3%nat); [|done].
  by rewrite (bool_decide_eq_false_2 _ (not_elem_of_nil _)).
Qed.

(** Asking about fewer COIs consults fewer checkboxes: when the hierarchy
    is visible for a list of COI names, it is visible for any list whose
    names, dashed, are among the dashed names of the first, and for null;
    null and the empty list ask the same. *)
Theorem checkIfAllVisible_fewer_cois cluster cois cois' w :
  (∀ k, k ∈ map replaceAll_space_dash (default [] cois) →
        k ∈ map replaceAll_space_dash (default [] cois')) →
  (checkIfAllVisible cluster cois' w).1 = Ok true →
  (checkIfAllVisible cluster cois w).1 = Ok true.
Proof.
  intros Hsub. rewrite !checkIfAllVisible_run. simpl.
  intros Hall. f_equal. injection Hall as Hall.
  rewrite forallb_forall in Hall. apply forallb_forall.
  intros st Hst. apply Hall. revert Hst. unfold statuses_from.
  rewrite <-!list_elem_of_In, !list_elem_of_fmap.
  intros (el & -> & Hin). exists el. split; [done|].
  revert Hin. rewrite !list_elem_of_In, !filter_In.
  intros [Hin Hskip]. split; [done|].
  assert (∀ o : option (list string),
            skipped (map replaceAll_space_dash <$> o) el
            = skipped (Some (map replaceAll_space_dash (default [] o))) el)
    as Hopt.
  { intros [l|]; [done|]. apply skipped_null. }
  rewrite Hopt in Hskip |- *.
  destruct (skipped (Some (map _ (default [] cois'))) el) eqn:Hsk'; [|done].
  by rewrite (skipped_fewer _ _ el Hsub Hsk') in Hskip.
Qed.

Lemma checkIfAllVisible_fewer_cois_witness :
  (checkIfAllVisible (Some "A") (Some ["x"])
     {| document := page_of [{| plan_id := "A"; parts := ["x"; "q"] |}]
                            (λ _, true);
        trace := [] |}).1 = Ok true.
Proof.
  apply (checkIfAllVisible_fewer_cois _ _ (Some ["q"; "x"])).
  - intros k Hk. apply list_elem_of_singleton in Hk. subst k. by right; left.
  - by vm_compute.
Defined.

Lemma unchecked_allvisible_status el doc cluster
    (coiClasses : option (list string)) :
  el ∈ doc →
  localName el = "label" →
  has_classes "allvisible-checkbox" el = true →
  (length (classList el) ≤ 3)%nat →
  control_checked el = false →
  forallb st_checked (statuses_from cluster coiClasses (labels cluster doc))
  = false.
Proof.
  intros Hin Hlab Hav Hlen Hun.
  apply not_true_is_false. rewrite forallb_forall. intros Hall.
  specialize (Hall (status_of cluster el)). simpl in Hall.
  rewrite Hun in Hall. apply Bool.diff_false_true, Hall.
  unfold statuses_from. apply list_elem_of_In, list_elem_of_fmap.
  exists el. split; [done|]. apply list_elem_of_In, filter_In. split.
  - apply list_elem_of_In, elem_of_labels. split; [done|]. split; [done|].
    unfold retrieved_by. by rewrite Hav.
  - unfold skipped. rewrite bool_decide_eq_false_2; [done|lia].
Qed.

(** The all-COIs checkbox rules the others: while a label with the class
    allvisible-checkbox and at most three classes is unchecked, no hierarchy
    is visible, whatever cluster and COIs are asked about, and no tooltip
    is returned. *)
Theorem allvisible_unchecked_hides_all el w :
  el ∈ document w →
  localName el = "label" →
  has_classes "allvisible-checkbox" el = true →
  (length (classList el) ≤ 3)%nat →
  control_checked el = false →
  (∀ cluster cois, (checkIfAllVisible cluster cois w).1 = Ok false) ∧
  (∀ rm identifier features,
     (tooltip_callback rm identifier features w).1 = Ok None).
Proof.
  intros Hin Hlab Hav Hlen Hun.
  assert (Hvis : ∀ cluster cois,
            (checkIfAllVisible cluster cois w).1 = Ok false).
  { intros cluster cois. rewrite checkIfAllVisible_run. simpl. f_equal.
    by apply (unchecked_allvisible_status el). }
  split; [done|]. intros rm identifier [|f rest]; [done|].
  unfold tooltip_callback.
  destruct (rm !! _) as [e|]; [|done].
  rewrite bind_run. specialize (Hvis (Some (cluster e)) (Some (coi e))).
  destruct (checkIfAllVisible _ _ w) as [[[]|] ?]; by simplify_eq/=.
Qed.

Lemma allvisible_unchecked_hides_all_witness :
  let w := {| document :=
                page_of [{| plan_id := "A"; parts := ["x"] |}]
                        (λ classes,
                           negb (String.eqb classes "allvisible-checkbox"));
              trace := [] |} in
  (∀ cluster cois, (checkIfAllVisible cluster cois w).1 = Ok false) ∧
  (∀ rm identifier features,
     (tooltip_callback rm identifier features w).1 = Ok None).
Proof.
  cbv zeta.
  apply (allvisible_unchecked_hides_all (toggle false "allvisible-checkbox")).
  - by left.
  - reflexivity.
  - reflexivity.
  - simpl. lia.
  - reflexivity.
Defined.

End visibility.

(** ** Hovering and clicking *)

Section hover_and_click.
Implicit Types (w : world) (rm : gmap string entry) (f : feature).
Implicit Types (units : layer).

Lemma click_on_other_layer_throws_aux units rm identifier f rest w :
  properties f !! "source" ≠ Some (sourceLayer units) →
  click_handler units rm identifier (f :: rest) w = (Throw TypeError, w).
Proof.
  intros Hsrc. unfold click_handler. cbn [map]. by rewrite decide_False.
Qed.

(** The click handler reads the first queried feature only, after the
    features of other layers were turned into undefined: with no feature
    under the pointer, or with a first feature of another layer (whatever
    follows it), the handler throws a TypeError before it touches the
    reverse mapping, the page or the console. *)
Theorem click_on_other_layer_throws units rm identifier
    (queried : list feature) w :
  (∀ f, head queried = Some f →
        properties f !! "source" ≠ Some (sourceLayer units)) →
  click_handler units rm identifier queried w = (Throw TypeError, w).
Proof.
  intros Hhead. destruct queried as [|f rest]; [done|].
  by apply click_on_other_layer_throws_aux, Hhead.
Qed.

Lemma click_on_other_layer_throws_witness :
  click_handler {| sourceLayer := "units" |}
    (createReverseMapping [("A", [("x", ["g"])])]) "GEOID20"
    [{| properties := {["source" := "roads"; "GEOID20" := "g"]} |};
     {| properties := {["source" := "units"; "GEOID20" := "g"]} |}]
    {| document := []; trace := [] |}
  = (Throw TypeError, {| document := []; trace := [] |}).
Proof.
  apply click_on_other_layer_throws.
  intros f Hf. simpl in Hf. injection Hf as <-. by vm_compute.
Defined.

(** Clicking agrees with hovering: on a feature of the layer whose unit is
    a key of the reverse mapping, the click handler opens the COI window
    exactly when the tooltip function returns a tooltip for that feature;
    both consult the same checkboxes and write the same console entry. *)
Theorem click_opens_when_tooltip_shows units rm identifier f rest (e : entry) w :
  properties f !! "source" = Some (sourceLayer units) →
  rm !! property_key (properties f !! identifier) = Some e →
  ∃ tooltip w1 w2,
    tooltip_callback rm identifier (f :: rest) w = (Ok tooltip, w1) ∧
    click_handler units rm identifier (f :: rest) w = (Ok (), w2) ∧
    document w2 = document w ∧
    trace w2 = trace w1 ++ match tooltip with
                           | Some _ => [WindowOpen "/coi-info/"]
                           | None => []
                           end.
Proof.
  intros Hsrc He. eexists _, _, _.
  split; [by apply (tooltip_callback_run _ _ _ _ e)|].
  rewrite click_handler_run, He by done. cbn zeta.
  split; [reflexivity|].
  destruct (forallb _ _); simpl; [done|].
  by rewrite (right_id_L [] (++)).
Qed.

Lemma click_opens_when_tooltip_shows_witness :
  let f := {| properties := {["source" := "units"; "GEOID20" := "g"]} |} in
  let w := {| document := page_of [{| plan_id := "A"; parts := ["x"] |}]
                                  (λ _, true);
              trace := [] |} in
  let rm := createReverseMapping [("A", [("x", ["g"])])] in
  ∃ tooltip w1 w2,
    tooltip_callback rm "GEOID20" (f :: []) w = (Ok tooltip, w1) ∧
    click_handler {| sourceLayer := "units" |} rm "GEOID20" (f :: []) w
      = (Ok (), w2) ∧
    document w2 = document w ∧
    trace w2 = trace w1 ++ match tooltip with
                           | Some _ => [WindowOpen "/coi-info/"]
                           | None => []
                           end.
Proof.
  cbv zeta.
  apply (click_opens_when_tooltip_shows _ _ _ _ _
           {| cluster := "A"; coi := ["x"] |}); by vm_compute.
Defined.

(** Of the callbacks, only the styling ones write to the page: asking for
    statuses or visibility, hovering, clicking and the two kinds of toggle
    leave every element as it is, whether they return or throw. *)
Theorem page_untouched_outside_styling units rm identifier
    (unitMap : unit_map) cluster cois c name checked
    (features : list feature) w :
  document (getCheckboxStatuses cluster cois w).2 = document w ∧
  document (checkIfAllVisible cluster cois w).2 = document w ∧
  document (tooltip_callback rm identifier features w).2 = document w ∧
  document (click_handler units rm identifier features w).2 = document w ∧
  document (toggleIndividualCOI c name units unitMap checked w).2
    = document w ∧
  document (toggleCluster c units unitMap checked w).2 = document w.
Proof.
  split; [by rewrite getCheckboxStatuses_run|].
  split; [by rewrite checkIfAllVisible_run|].
  split; [|split; [|split]].
  - by destruct (tooltip_callback_ok rm identifier features w)
      as (r & w' & -> & Hdoc & _).
  - destruct features as [|f rest]; [done|].
    destruct (decide (properties f !! "source" = Some (sourceLayer units)))
      as [Hsrc|Hsrc].
    + rewrite click_handler_run by done.
      destruct (rm !! _) as [e|]; [|done]. simpl.
      by destruct (forallb _ _).
    + by rewrite click_on_other_layer_throws_aux.
  - unfold toggleIndividualCOI. by destruct (property unitMap c).
  - by rewrite toggleCluster_run.
Qed.

End hover_and_click.

(** ** Styling the checkboxes *)

Section styling.
Implicit Types (w : world) (doc : list element) (el : element).
Implicit Types (units : layer) (cluster : option string).

Lemma restyle_at_same_but_style (f : element → element) doc ref :
  (∀ el, same_but_style el (f el)) →
  Forall2 same_but_style doc (restyle_at f doc ref).
Proof.
  intros Hf. apply Forall2_same_length_lookup. unfold restyle_at. split.
  - destruct (doc !! ref); [|done]. by rewrite length_insert.
  - intros i a b Ha Hb.
    assert (restyle_at f doc ref !! i = Some b) as Hb' by done.
    rewrite restyle_at_lookup, Ha in Hb'. case_decide; simplify_eq/=; [done|].
    by repeat split.
Qed.

Lemma same_but_style_trans : Transitive same_but_style.
Proof.
  intros a b c (?&?&?) (?&?&?). repeat split; congruence.
Qed.

Lemma foldl_restyle_at_same_but_style (f : element → element)
    (refs : list nat) doc :
  (∀ el, same_but_style el (f el)) →
  Forall2 same_but_style doc (foldl (restyle_at f) doc refs).
Proof.
  intros Hf. revert doc. induction refs as [|ref refs IH]; intros doc.
  - apply Forall2_same_length_lookup. split; [done|].
    intros i a b Ha Hb. simpl in Hb. simplify_eq. by repeat split.
  - cbn [foldl].
    eapply (Forall2_trans same_but_style same_but_style same_but_style);
      [apply same_but_style_trans| |apply IH].
    by apply restyle_at_same_but_style.
Qed.

Lemma has_classes_same_but_style names (a b : element) :
  same_but_style a b → has_classes names a = has_classes names b.
Proof. intros (_ & Hcl & _). unfold has_classes. by rewrite Hcl. Qed.

Lemma positions_from_same_but_style n names doc doc' :
  Forall2 same_but_style doc doc' →
  positions_from n (has_classes names) doc
  = positions_from n (has_classes names) doc'.
Proof.
  intros Hsame. revert n. induction Hsame as [|a b doc doc' Hab _ IH];
    intros n; [done|].
  simpl. by rewrite IH, (has_classes_same_but_style names a b).
Qed.

Lemma candidates_same_but_style cluster doc doc' :
  Forall2 same_but_style doc doc' →
  candidates cluster doc = candidates cluster doc'.
Proof.
  intros Hsame. unfold candidates, positions.
  by rewrite !(positions_from_same_but_style _ _ doc doc').
Qed.

Lemma is_label_same_but_style doc doc' ref :
  Forall2 same_but_style doc doc' → is_label doc ref = is_label doc' ref.
Proof.
  intros Hsame. unfold is_label.
  destruct (doc !! ref) as [a|] eqn:Ha.
  - destruct (Forall2_lookup_l _ _ _ _ _ Hsame Ha) as (b & -> & (Hn & _)).
    by rewrite Hn.
  - apply lookup_ge_None in Ha. rewrite (Forall2_length _ _ _ Hsame) in Ha.
    apply lookup_ge_None in Ha. by rewrite Ha.
Qed.

Lemma retrieved_same_but_style cluster doc doc' :
  Forall2 same_but_style doc doc' →
  List.filter (is_label doc) (candidates cluster doc)
  = List.filter (is_label doc') (candidates cluster doc').
Proof.
  intros Hsame. rewrite (candidates_same_but_style cluster doc doc') by done.
  apply filter_ext. intros ref. by apply is_label_same_but_style.
Qed.

Lemma statuses_same_but_style cluster coiClasses (refs : list nat) doc doc' :
  Forall2 same_but_style doc doc' →
  statuses_from cluster coiClasses (elements_at doc refs)
  = statuses_from cluster coiClasses (elements_at doc' refs).
Proof.
  intros Hsame. unfold statuses_from, elements_at.
  induction refs as [|ref refs IH]; [done|]. cbn [omap list_omap].
  destruct (doc !! ref) as [a|] eqn:Ha.
  - destruct (Forall2_lookup_l _ _ _ _ _ Hsame Ha) as (b & -> & (Hn & Hc & Hk)).
    cbn [List.filter]. unfold skipped at 1 3, status_of. rewrite Hc.
    destruct (negb _); cbn [fmap list_fmap]; [|done].
    unfold status_of in IH. by rewrite IH, Hc, Hk.
  - apply lookup_ge_None in Ha. rewrite (Forall2_length _ _ _ Hsame) in Ha.
    apply lookup_ge_None in Ha. by rewrite Ha.
Qed.

Lemma display_style_same_but_style checked el :
  same_but_style el (display_style checked el).
Proof. by repeat split. Qed.

Lemma initial_style_same_but_style el : same_but_style el (initial_style el).
Proof. by repeat split. Qed.

(** initialStyles never throws: it disables every label retrieveCheckboxes()
    returns except the first of the array (pointer-events "none", opacity
    1/2), leaves every other element as it is, and but for the console
    entry of retrieveCheckboxes records nothing. *)
Theorem initialStyles_effect w :
  ∃ refs w0 w',
    retrieveCheckboxes None w = (Ok refs, w0) ∧
    initialStyles w = (Ok (), w') ∧
    trace w' = trace w0 ∧
    ∀ i, document w' !! i =
           if decide (i ∈ drop 1 refs)
           then initial_style <$> document w !! i
           else document w !! i.
Proof.
  eexists _, _, _. split; [apply retrieveCheckboxes_run|].
  split; [apply initialStyles_run|]. split; [done|].
  intros i. cbn [document]. by apply foldl_restyle_at_lookup.
Qed.

(** Styling does not change what the checkboxes say: after the display
    callback, with either argument, getCheckboxStatuses returns the statuses
    it returned before and retrieveCheckboxes the same references. *)
Theorem displayCOIs_keeps_statuses units checked cluster
    (cois : option (list string)) w :
  ∃ w', displayCOIs units checked w = (Ok (), w') ∧
        (retrieveCheckboxes cluster w').1 = (retrieveCheckboxes cluster w).1 ∧
        (getCheckboxStatuses cluster cois w').1
          = (getCheckboxStatuses cluster cois w).1.
Proof.
  eexists. split; [apply displayCOIs_run|].
  pose proof (foldl_restyle_at_same_but_style (display_style checked)
    (drop 1 (List.filter (is_label (document w))
               (candidates None (document w))))
    (document w) (display_style_same_but_style checked)) as Hsame.
  rewrite !retrieveCheckboxes_run, !getCheckboxStatuses_run.
  cbn [fst document]. unfold labels.
  rewrite <-(retrieved_same_but_style cluster _ _ Hsame).
  split; [done|]. f_equal. symmetry. by apply statuses_same_but_style.
Qed.

(** The last call of the display callback decides the styles: calling it
    with [b1] and then with [b2] leaves the page as one call with [b2]
    does. *)
Theorem displayCOIs_last_call_wins units b1 b2 w :
  ∃ w1 w2 w2',
    displayCOIs units b1 w = (Ok (), w1) ∧
    displayCOIs units b2 w1 = (Ok (), w2) ∧
    displayCOIs units b2 w = (Ok (), w2') ∧
    document w2 = document w2'.
Proof.
  eexists _, _, _. split; [apply displayCOIs_run|].
  split; [apply displayCOIs_run|]. split; [apply displayCOIs_run|].
  cbn [document trace].
  set (refs := drop 1 (List.filter (is_label (document w))
                         (candidates None (document w)))).
  pose proof (foldl_restyle_at_same_but_style (display_style b1) refs
    (document w) (display_style_same_but_style b1)) as Hsame.
  rewrite <-(retrieved_same_but_style None _ _ Hsame). fold refs.
  apply list_eq. intros i. rewrite !foldl_restyle_at_lookup by done.
  case_decide; [|done]. destruct (document w !! i); [|done].
  by destruct b1, b2.
Qed.

(** Turning the display off styles the page as initialStyles does. *)
Theorem displayCOIs_off_as_initialStyles units w :
  ∃ w1 w2,
    displayCOIs units false w = (Ok (), w1) ∧
    initialStyles w = (Ok (), w2) ∧
    document w1 = document w2.
Proof.
  eexists _, _. split; [apply displayCOIs_run|].
  split; [apply initialStyles_run|]. done.
Qed.

End styling.

(** ** A session, and the rendered page *)

Section session.
Implicit Types (w : world) (units : layer) (unitMap : unit_map).

Lemma top_level_not_among_rest (clusters : list plan) (state : string → bool) :
  0%nat ∉ drop 1 (List.filter (is_label (page_of clusters state))
                    (candidates None (page_of clusters state))).
Proof.
  unfold page_of.
  set (top := toggle _ _). set (rest := mbind _ clusters).
  unfold candidates, positions. cbn [truthy positions_from].
  change (has_classes "allvisible-checkbox" top) with true.
  change (has_classes "cluster-checkbox" top) with false.
  change (has_classes "coi-checkbox" top) with false.
  cbn [app List.filter]. change (is_label (top :: rest) 0) with true.
  cbn [drop]. intros Hin%list_elem_of_In%filter_In.
  destruct Hin as [Hin%list_elem_of_In _].
  rewrite !elem_of_app, !elem_of_positions_from in Hin.
  destruct Hin as [[(? & ? & _)|(? & ? & _)]|(? & ? & _)]; lia.
Qed.

(** On the page the tab renders, the first checkbox retrieved is the
    all-COIs checkbox and it is retrieved once: neither initialStyles nor
    the display callback restyles it, whatever the clusters are called. *)
Theorem top_level_checkbox_keeps_style (clusters : list plan)
    (state : string → bool) units checked (t : list event) :
  let w := {| document := page_of clusters state; trace := t |} in
  ∃ w1 w2,
    initialStyles w = (Ok (), w1) ∧
    displayCOIs units checked w = (Ok (), w2) ∧
    document w1 !! 0%nat
      = Some (toggle (state "allvisible-checkbox") "allvisible-checkbox") ∧
    document w2 !! 0%nat
      = Some (toggle (state "allvisible-checkbox") "allvisible-checkbox").
Proof.
  intros w. eexists _, _. split; [apply initialStyles_run|].
  split; [apply displayCOIs_run|]. cbn [document].
  pose proof (top_level_not_among_rest clusters state) as Hnot.
  rewrite !foldl_restyle_at_lookup by done.
  by rewrite !decide_False by done.
Qed.

(** COIs start hidden.  The tab is rendered with the all-COIs checkbox
    unchecked (line 303) and the others checked (lines 339, 460); after the
    session has been set up on that page, hovering returns null for every
    feature and clicking opens no window, until a checkbox changes. *)
Theorem tooltips_hidden_at_start (clusters : list plan) unitMap units w :
  let page :=
    page_of clusters
      (λ classes, negb (String.eqb classes "allvisible-checkbox")) in
  ∃ h w',
    CoiVisualizationPlugin clusters unitMap units page w = (Ok h, w') ∧
    (∀ features, (on_hover h features w').1 = Ok None) ∧
    (∀ queried,
       WindowOpen "/coi-info/" ∈ trace (on_click h queried w').2 →
       WindowOpen "/coi-info/" ∈ trace w').
Proof.
  intros page. unfold CoiVisualizationPlugin.
  rewrite bind_run, watchTooltips_run, bind_run. unfold render.
  rewrite bind_run, initialStyles_run. unfold logged.
  cbn [document trace]. eexists _, _. split; [reflexivity|].
  cbn [on_hover on_click].
  set (w' := {| document := foldl _ page _; trace := _ |}).
  assert (Hhidden : ∀ cluster coiClasses,
    forallb st_checked
      (statuses_from cluster coiClasses (labels cluster (document w')))
    = false).
  { intros cluster coiClasses.
    apply (unchecked_allvisible_status (toggle false "allvisible-checkbox")).
    - apply list_elem_of_lookup. exists 0%nat. unfold w'. cbn [document].
      rewrite foldl_restyle_at_lookup by done.
      by rewrite decide_False by apply top_level_not_among_rest.
    - done.
    - done.
    - simpl. lia.
    - done. }
  split.
  - intros [|f rest]; [done|]. unfold tooltip_callback.
    destruct (createReverseMapping unitMap !! _) as [e|]; [|done].
    rewrite bind_run, checkIfAllVisible_run.
    change (document (logged (Invoked unitMap) w')) with (document w').
    by rewrite Hhidden.
  - intros [|f rest]; [done|].
    destruct (decide (properties f !! "source" = Some (sourceLayer units)))
      as [Hsrc|Hsrc].
    + rewrite click_handler_run by done.
      destruct (createReverseMapping unitMap !! _) as [e|]; [|done].
      cbn zeta.
      change (document (logged (Invoked unitMap) w')) with (document w').
      rewrite <-statuses_checked_consulted, Hhidden. cbn [snd].
      unfold logged at 1. cbn [trace].
      rewrite elem_of_app, list_elem_of_singleton. by intros [?|?].
    + unfold click_handler. cbn [map]. by rewrite decide_False by done.
Qed.

End session.

(** ** The toggle of one COI *)

Section coi_toggle.
Implicit Types (w : world) (units : layer) (unitMap : unit_map).

Lemma property_Some_elem_of {A} (entries : list (string * A)) key (v : A) :
  property entries key = Some v → (key, v) ∈ entries.
Proof.
  induction entries as [|[k v'] entries IH]; [done|]. simpl.
  case_decide; intros ?; simplify_eq; [by left|]. right. by apply IH.
Qed.

(** The toggle of a COI hands the library the array [unitMap[cluster][name]]
    in one call, and every unit of that array has the COI in the "coi"
    array of its reverse-mapping entry: the units a COI toggle restyles
    all list that COI in their tooltip. *)
Theorem toggleIndividualCOI_units_list_coi c name units unitMap
    (cl : cluster_entries) (gs : list string) checked w :
  property unitMap c = Some cl →
  property cl name = Some gs →
  toggleIndividualCOI c name units unitMap checked w =
    (Ok (), logged (OpacityStyleExpression (VLayer units) (VStrings gs)
                      (VBoolean checked)) w) ∧
  ∀ g, g ∈ gs →
       ∃ e, createReverseMapping unitMap !! g = Some e ∧ name ∈ coi e.
Proof.
  intros Hc Hname. split.
  - unfold toggleIndividualCOI. by rewrite Hc, Hname.
  - intros g Hg.
    assert (member unitMap c name g) as Hm.
    { exists cl, gs. eauto using property_Some_elem_of. }
    destruct (proj2 (createReverseMapping_is_Some unitMap g)) as [e He].
    { by exists c, name. }
    exists e. split; [done|].
    rewrite createReverseMapping_lookup in He.
    destruct (last_cluster g unitMap); simplify_eq/=.
    apply elem_of_cois_of. by exists c.
Qed.

Lemma toggleIndividualCOI_units_list_coi_witness :
  let unitMap : unit_map := [("A", [("x", ["g"; "h"])])] in
  let units := {| sourceLayer := "units" |} in
  let w := {| document := []; trace := [] |} in
  toggleIndividualCOI "A" "x" units unitMap false w =
    (Ok (), logged (OpacityStyleExpression (VLayer units)
                      (VStrings ["g"; "h"]) (VBoolean false)) w) ∧
  ∀ g, g ∈ ["g"; "h"] →
       ∃ e, createReverseMapping unitMap !! g = Some e ∧ "x" ∈ coi e.
Proof.
  cbv zeta.
  by apply (toggleIndividualCOI_units_list_coi "A" "x" _ _
              [("x", ["g"; "h"])]).
Defined.

End coi_toggle.

(** ** Names and classes *)

Section names.
Implicit Types (s t cur : string) (a : ascii).

(** replaceAll(" ", "-") changes a string character by character: a space
    becomes a dash and every other character stays, so the length is kept,
    the result has no space, and dashing twice is dashing once. *)
Theorem replaceAll_space_dash_pointwise s :
  (∀ i, String.get i (replaceAll_space_dash s) =
          (λ a, if Ascii.eqb a " " then "-"%char else a) <$> String.get i s) ∧
  String.length (replaceAll_space_dash s) = String.length s ∧
  free_of (λ a, Ascii.eqb a " ") (replaceAll_space_dash s) = true ∧
  replaceAll_space_dash (replaceAll_space_dash s) = replaceAll_space_dash s.
Proof.
  induction s as [|a s (Hget & Hlen & Hfree & Hidem)]; [done|].
  split; [|split; [|split]].
  - intros [|i]; [done|]. apply Hget.
  - simpl. by rewrite Hlen.
  - simpl. rewrite Hfree, andb_true_r.
    by destruct (Ascii.eqb a " ") eqn:Ha; [|rewrite Ha].
  - simpl. rewrite Hidem. f_equal.
    by destruct (Ascii.eqb a " ") eqn:Ha; [|rewrite Ha].
Qed.

End names.

(** ** Failure on inherited keys *)

Section inherited_keys.
Implicit Types (unitMap : unit_map) (rm : gmap string entry).
Implicit Types (g c k : string) (w : world).

Lemma Prototype_add_cluster_visits acc (ce : string * cluster_entries) :
  Prototype.add_cluster acc ce
  = foldl Prototype.visit acc (ke ← ce.2; g ← ke.2; [(ce.1, ke.1, g)]).
Proof.
  unfold Prototype.add_cluster. destruct ce as [c cl]; simpl.
  revert acc. induction cl as [|[k gs] cl IH]; intros acc; [done|].
  rewrite bind_cons, foldl_app; simpl. rewrite IH. f_equal.
  clear IH. revert acc. induction gs as [|g gs IH]; intros acc; [done|].
  rewrite bind_cons; simpl. apply IH.
Qed.

Lemma Prototype_createReverseMapping_visits unitMap :
  Prototype.createReverseMapping unitMap = foldl Prototype.visit (Ok ∅) (visits unitMap).
Proof.
  unfold Prototype.createReverseMapping, visits.
  generalize (Ok (∅ : gmap string entry)).
  induction unitMap as [|ce unitMap IH]; intros acc; [done|].
  rewrite bind_cons, foldl_app; simpl.
  by rewrite IH, Prototype_add_cluster_visits.
Qed.

Lemma foldl_step_Throw err (vs : list (string * string * string)) :
  foldl Prototype.visit (Throw err) vs = Throw err.
Proof. induction vs as [|v vs IH]; [done|]. apply IH. Qed.

(** From an object without inherited names among its keys, the loops end
    as the pure loops do when no unit names an inherited property, and
    throw when one does. *)
Lemma foldl_step_spec (vs : list (string * string * string)) rm :
  (∀ g, is_Some (rm !! g) → g ∉ Prototype.inherited_names) →
  foldl Prototype.visit (Ok rm) vs =
    if decide (Forall (λ v, v.2 ∉ Prototype.inherited_names) vs)
    then Ok (foldl visit rm vs) else Throw TypeError.
Proof.
  revert rm. induction vs as [|v vs IH]; intros rm Hown; [done|].
  cbn [foldl]. unfold Prototype.visit at 2, Prototype.add_geoid, Prototype.get.
  destruct (decide (v.2 ∈ Prototype.inherited_names)) as [Hin|Hnin].
  - destruct (rm !! v.2) as [e|] eqn:He.
    { exfalso. apply (Hown v.2); [by eexists|done]. }
    rewrite foldl_step_Throw, decide_False; [done|].
    by intros [? _]%Forall_cons.
  - assert (foldl Prototype.visit (Ok (visit rm v)) vs =
              if decide (Forall (λ v, v.2 ∉ Prototype.inherited_names) vs)
              then Ok (foldl visit (visit rm v) vs) else Throw TypeError)
      as Hrest.
    { apply IH. intros g. rewrite visit_lookup.
      destruct (decide (v.2 = g)) as [<-|Hg]; [by intros _|apply Hown]. }
    assert ((match rm !! v.2 with
             | Some e => Ok (<[v.2 := {| cluster := v.1.1;
                                         coi := coi e ++ [v.1.2] |}]> rm)
             | None => Ok (<[v.2 := {| cluster := v.1.1;
                                       coi := [v.1.2] |}]> rm)
             end) = Ok (visit rm v)) as Hstep.
    { unfold visit, add_geoid. by destruct (rm !! v.2). }
    destruct (rm !! v.2) as [e|]; rewrite Hstep, Hrest;
      destruct (decide (Forall _ vs)) as [Hall|Hall].
    + by rewrite decide_True by by constructor.
    + rewrite decide_False; [done|]. by intros [_ ?]%Forall_cons.
    + by rewrite decide_True by by constructor.
    + rewrite decide_False; [done|]. by intros [_ ?]%Forall_cons.
Qed.

Lemma Forall_visits unitMap :
  Forall (λ v, v.2 ∉ Prototype.inherited_names) (visits unitMap) ↔
  ∀ c k g, member unitMap c k g → g ∉ Prototype.inherited_names.
Proof.
  rewrite Forall_forall. split.
  - intros Hall c k g Hm. by apply (Hall (c, k, g)), elem_of_visits.
  - intros Hall [[c k] g] Hin. by apply (Hall c k g), elem_of_visits.
Qed.


Lemma Prototype_createReverseMapping_Throw unitMap c k g :
  member unitMap c k g → g ∈ Prototype.inherited_names →
  Prototype.createReverseMapping unitMap = Throw TypeError.
Proof.
  intros Hm Hin.
  rewrite Prototype_createReverseMapping_visits, foldl_step_spec.
  - rewrite decide_False; [done|]. rewrite Forall_visits.
    intros Hfree. by apply (Hfree c k g).
  - intros g' [e He]. by rewrite lookup_empty in He.
Qed.

(** On a hovered identifier that names no inherited property, and on no
    feature, the two readings of the tooltip function agree. *)
Lemma Prototype_tooltip_callback_agrees rm (identifier : string)
    (features : list feature) w :
  (∀ f, head features = Some f →
        property_key (properties f !! identifier)
          ∉ Prototype.inherited_names) →
  Prototype.tooltip_callback rm identifier features w
  = tooltip_callback rm identifier features w.
Proof.
  intros Hkey. destruct features as [|f rest]; [done|].
  unfold Prototype.tooltip_callback, tooltip_callback, Prototype.get.
  destruct (rm !! _) as [e|]; [done|].
  by rewrite decide_False by by apply Hkey.
Qed.




End inherited_keys.
